(** * Credential extraction and resolution of the NASA APOD MCP server

    A shallow embedding of [src/server.py]: the authentication middleware
    ([AuthMiddleware.on_request]), the credential resolver
    ([get_session_api_key]) and the two tools ([example_tool],
    [get_api_info]), followed by the properties the specification states
    about them.

    Python [str] values that come out of starlette's header mapping are
    latin-1 decoded, one character per byte, so they are modelled by Rocq's
    [string] (a list of 8-bit [ascii]). *)

From Stdlib Require Import Ascii String List Bool Arith Lia.
From stdpp Require Import base option gmap strings.

Local Open Scope string_scope.
Local Open Scope list_scope.

(** ** Python string primitives used by the source *)

Module PyStr.

(** [str.isspace] on one character of the latin-1 range: TAB..CR,
    FS..US, SPACE, NEL and NBSP. *)
Definition isspace (c : ascii) : bool :=
  let n := nat_of_ascii c in
  (((9 <=? n) && (n <=? 13)) || ((28 <=? n) && (n <=? 32))
   || (n =? 133) || (n =? 160))%nat.

(** [str.lower] on one character of the latin-1 range: A..Z and the
    accented capitals U+00C0..U+00DE (the multiplication sign U+00D7
    excepted) move up by 32. *)
Definition lower_char (c : ascii) : ascii :=
  let n := nat_of_ascii c in
  if (((65 <=? n) && (n <=? 90))
      || ((192 <=? n) && (n <=? 222) && negb (n =? 215)))%nat
  then ascii_of_nat (n + 32) else c.

(** [s.lower()] *)
Fixpoint lower (s : string) : string :=
  match s with
  | EmptyString => EmptyString
  | String c r => String (lower_char c) (lower r)
  end.

(** [s.startswith(p)] *)
Fixpoint startswith (s p : string) {struct p} : bool :=
  match p, s with
  | EmptyString, _ => true
  | String _ _, EmptyString => false
  | String a p', String b s' => Ascii.eqb a b && startswith s' p'
  end.

(** [s[n:]] *)
Fixpoint slice_from (n : nat) (s : string) : string :=
  match n, s with
  | O, _ => s
  | S _, EmptyString => EmptyString
  | S n', String _ r => slice_from n' r
  end.

(** [s[:n]] *)
Fixpoint slice_to (n : nat) (s : string) : string :=
  match n, s with
  | O, _ => EmptyString
  | S _, EmptyString => EmptyString
  | S n', String c r => String c (slice_to n' r)
  end.

(** [s.lstrip()] *)
Fixpoint lstrip (s : string) : string :=
  match s with
  | EmptyString => EmptyString
  | String c r => if isspace c then lstrip r else s
  end.

(** [s.rstrip()]: the trailing whitespace run is dropped. *)
Fixpoint rstrip (s : string) : string :=
  match s with
  | EmptyString => EmptyString
  | String c r =>
      match rstrip r with
      | EmptyString => if isspace c then EmptyString else String c EmptyString
      | r' => String c r'
      end
  end.

(** [s.strip()] *)
Definition strip (s : string) : string := rstrip (lstrip s).

(** [p in s] for strings. *)
Fixpoint contains (s p : string) : bool :=
  startswith s p ||
  match s with
  | EmptyString => false
  | String _ r => contains r p
  end.

(** Every character of [s] is whitespace. *)
Fixpoint all_space (s : string) : bool :=
  match s with
  | EmptyString => true
  | String c r => isspace c && all_space r
  end.

End PyStr.

(** ** Python values, objects and the world the server runs in *)

(** The values that reach the credential slot: [None] or a [str]. *)
Inductive pyval : Type :=
| PyNone
| PyStr (s : string).

(** Python truthiness ([if v:] / [not v]): [None] and the empty string are
    falsy. *)
Definition truthy (v : pyval) : bool :=
  match v with
  | PyNone => false
  | PyStr EmptyString => false
  | PyStr (String _ _) => true
  end.

(** An instance of [Exception]: its class name and its message. *)
Record exn : Type := Exn { exn_class : string; exn_msg : string }.

(** Outcome of running a piece of Python: a value or a raised exception. *)
Inductive result (A : Type) : Type :=
| Ret (a : A)
| Raise (e : exn).
Arguments Ret {A} a.
Arguments Raise {A} e.

(** The attribute dictionary of a state object ([context.state],
    [request.state]): attribute name to value. [hasattr(o, k)] is
    [is_Some (o !! k)], [o.k = v] is [<[k:=v]> o]. *)
Abbreviation attrs := (gmap string pyval).

(** starlette's [Headers]: the raw list of (name, value) pairs, looked up
    case-insensitively by name, first match wins. *)
Abbreviation Headers := (list (string * string)).

Fixpoint headers_get (hs : Headers) (key default : string) : string :=
  match hs with
  | [] => default
  | (k, v) :: hs' =>
      if String.eqb (PyStr.lower k) (PyStr.lower key) then v
      else headers_get hs' key default
  end.

(** [d[k] = v] on a dictionary kept in insertion order: a key that is
    there keeps its place and takes the value, a new key goes last. *)
Fixpoint dict_store (d : list (string * string)) (k v : string)
    : list (string * string) :=
  match d with
  | [] => [(k, v)]
  | (k', v') :: d' =>
      if String.eqb k' k then (k', v) :: d' else (k', v') :: dict_store d' k v
  end.

(** [dict(request.headers)]: the names of the raw list in turn, each stored
    with the value the mapping gives for it, so that a name that comes
    several times is kept once, with its first value. *)
Definition headers_dict (hs : Headers) : list (string * string) :=
  fold_left (fun d kv => dict_store d (fst kv) (headers_get hs (fst kv) "")) hs [].

(** starlette's [Request] as far as the server reads and writes it.
    [request.state] always exists. *)
Record Request : Type := mkRequest {
  req_method : string;
  req_url : string;
  req_headers : Headers;
  req_state : attrs
}.

(** Context objects are referred to by identity. *)
Abbreviation ctx_id := nat.

(** What the server logs, with the interpolated values kept apart from the
    fixed text of each message. *)
Inductive log_message : Type :=
| MsgReceivedHeaders (hs : list (string * string))
| MsgMethodUrl (method url : string)
| MsgBoundContext (token_prefix : string)
| MsgBoundRequest (token_prefix : string)
| MsgNoApiKey
| MsgExtractFailed (e : exn)
| MsgRetrieveFailed (e : exn).

Inductive log_level : Type := DEBUG | INFO | WARNING.

(** Observable effects: calls on [logger] and reads of the clock. *)
Inductive event : Type :=
| EvLog (lvl : log_level) (msg : log_message)
| EvClock.

(** The world one inbound call runs in.
    - [heap]: the context objects that have a [state] attribute, with that
      state's attributes; a context that is not in [heap] has no [state].
    - [http_request]: what [get_http_request()] does, returning the request
      of the current call or raising.
    - [current_context]: what [get_context()] does.
    - [clock]: what [datetime.now().isoformat()] returns.
    - [events]: the effects so far, most recent first. *)
Record World : Type := mkWorld {
  heap : gmap ctx_id attrs;
  http_request : result Request;
  current_context : result ctx_id;
  clock : string;
  events : list event
}.

(** ** A state-and-exception monad for the source's control flow *)

Definition M (A : Type) : Type := World -> result A * World.

Definition ret {A} (a : A) : M A := fun w => (Ret a, w).

Definition raise {A} (e : exn) : M A := fun w => (Raise e, w).

Definition bind {A B} (m : M A) (k : A -> M B) : M B :=
  fun w =>
    match m w with
    | (Ret a, w') => k a w'
    | (Raise e, w') => (Raise e, w')
    end.

(** [try: body / except Exception as e: handler e]; the writes of [body]
    before the raise stay. *)
Definition try_except {A} (body : M A) (handler : exn -> M A) : M A :=
  fun w =>
    match body w with
    | (Ret a, w') => (Ret a, w')
    | (Raise e, w') => handler e w'
    end.

#[global] Instance M_ret : MRet M := @ret.
#[global] Instance M_bind : MBind M := fun A B k m => bind m k.

Definition set_events (w : World) (es : list event) : World :=
  mkWorld (heap w) (http_request w) (current_context w) (clock w) es.

Definition set_heap (w : World) (h : gmap ctx_id attrs) : World :=
  mkWorld h (http_request w) (current_context w) (clock w) (events w).

Definition set_http_request (w : World) (r : result Request) : World :=
  mkWorld (heap w) r (current_context w) (clock w) (events w).

(** [logger.<lvl>(msg)] *)
Definition log (lvl : log_level) (msg : log_message) : M unit :=
  fun w => (Ret tt, set_events w (EvLog lvl msg :: events w)).

(** [get_http_request()] *)
Definition get_http_request : M Request :=
  fun w => (http_request w, w).

(** [get_context()] *)
Definition get_context : M ctx_id :=
  fun w => (current_context w, w).

(** [datetime.now().isoformat()] *)
Definition datetime_now_isoformat : M string :=
  fun w => (Ret (clock w), set_events w (EvClock :: events w)).

(** [context.state] when [hasattr(context, 'state')], else [None], for a
    context that holds its state as a plain attribute; a context whose
    [state] raises is read by [read_context_state] below. *)
Definition context_state (context : ctx_id) : M (option attrs) :=
  fun w => (Ret (heap w !! context), w).

(** [context.state.api_key = v]; [AttributeError] without a [state]. *)
Definition set_context_api_key (context : ctx_id) (v : pyval) : M unit :=
  fun w =>
    match heap w !! context with
    | Some st => (Ret tt, set_heap w (<[context := <["api_key" := v]> st]> (heap w)))
    | None => (Raise (Exn "AttributeError" "state"), w)
    end.

(** [request.state.api_key = v] on the request of the current call. *)
Definition set_request_api_key (v : pyval) : M unit :=
  fun w =>
    match http_request w with
    | Ret rq =>
        (Ret tt,
         set_http_request w
           (Ret (mkRequest (req_method rq) (req_url rq) (req_headers rq)
                   (<["api_key" := v]> (req_state rq)))))
    | Raise e => (Raise e, w)
    end.

(** [v[:n]] for a value: a [TypeError] on [None]. *)
Definition py_slice_to (n : nat) (v : pyval) : M string :=
  match v with
  | PyStr s => ret (PyStr.slice_to n s)
  | PyNone => raise (Exn "TypeError" "'NoneType' object is not subscriptable")
  end.

(** ** The authentication middleware (server.py, lines 44-83) *)

Module AuthMiddleware.

(** Line 59: [auth[7:].strip() if auth.lower().startswith("bearer ") else None] *)
Definition bearer_token (auth : string) : pyval :=
  if PyStr.startswith (PyStr.lower auth) "bearer "
  then PyStr (PyStr.strip (PyStr.slice_from 7 auth))
  else PyNone.

(** Lines 58-63: the token taken from the headers of [request]. *)
Definition extract_token (request : Request) : pyval :=
  let auth := headers_get (req_headers request) "Authorization" "" in
  let token := bearer_token auth in
  if negb (truthy token)
  then PyStr (headers_get (req_headers request) "X-API-KEY" "")
  else token.

(** Lines 65-76: bind a truthy token to the context state when the context
    has one, to the request state otherwise; warn when there is none. *)
Definition bind_token (context : ctx_id) (token : pyval) : M unit :=
  if truthy token then
    st ← context_state context;
    match st with
    | Some _ =>
        set_context_api_key context token;;
        p ← py_slice_to 10 token;
        log INFO (MsgBoundContext p)
    | None =>
        set_request_api_key token;;
        p ← py_slice_to 10 token;
        log INFO (MsgBoundRequest p)
    end
  else log WARNING MsgNoApiKey.

(** Lines 50-76: the body of the [try] block. *)
Definition extract_and_bind (context : ctx_id) : M unit :=
  request ← get_http_request;
  log INFO (MsgReceivedHeaders (headers_dict (req_headers request)));;
  log INFO (MsgMethodUrl (req_method request) (req_url request));;
  bind_token context (extract_token request).

(** Lines 49-80: the [try] block with its [except Exception] handler. *)
Definition guarded_extract_and_bind (context : ctx_id) : M unit :=
  try_except (extract_and_bind context)
             (fun e => log DEBUG (MsgExtractFailed e)).

(** Lines 47-83: [on_request(self, context, call_next)]. *)
Definition on_request {R} (context : ctx_id) (call_next : ctx_id -> M R) : M R :=
  guarded_extract_and_bind context;;
  call_next context.

End AuthMiddleware.

(** ** The credential resolver (server.py, lines 103-130) *)

(** [o.api_key] when [hasattr(o, 'api_key')] on an optional state object. *)
Definition state_api_key (st : option attrs) : option pyval :=
  match st with
  | Some a => a !! "api_key"
  | None => None
  end.

(** Lines 112-117: the request store; [Some v] stands for [return v],
    [None] for falling through. *)
Definition request_store_step : M (option pyval) :=
  try_except
    (request ← get_http_request;
     mret (req_state request !! "api_key"))
    (fun _ => mret None).

(** Lines 120-125: the context obtained through [get_context()]. *)
Definition alternate_context_step : M (option pyval) :=
  try_except
    (ctx ← get_context;
     st ← context_state ctx;
     mret (state_api_key st))
    (fun _ => mret None).

(** Lines 103-130: [get_session_api_key(context)]. *)
Definition get_session_api_key (context : ctx_id) : M pyval :=
  try_except
    (st ← context_state context;
     match state_api_key st with
     | Some v => mret v
     | None =>
         r ← request_store_step;
         match r with
         | Some v => mret v
         | None =>
             r' ← alternate_context_step;
             match r' with
             | Some v => mret v
             | None => mret PyNone
             end
         end
     end)
    (fun e => log DEBUG (MsgRetrieveFailed e);; mret PyNone).

(** ** The resolver on contexts whose [state] raises *)

(** [hasattr(context, 'state')] followed by [context.state], for any
    object: [raising] lists the contexts whose [state] attribute raises when
    it is read, with the exception. [hasattr] turns an [AttributeError] into
    [False] and lets every other exception through; a context that is not
    listed is read as [context_state] reads it. *)
Definition read_context_state (raising : gmap ctx_id exn) (context : ctx_id)
    : M (option attrs) :=
  fun w =>
    match raising !! context with
    | Some e =>
        if String.eqb (exn_class e) "AttributeError" then (Ret None, w)
        else (Raise e, w)
    | None => context_state context w
    end.

(** Lines 120-125 on such contexts. *)
Definition alternate_context_step_on (raising : gmap ctx_id exn)
    : M (option pyval) :=
  try_except
    (ctx ← get_context;
     st ← read_context_state raising ctx;
     mret (state_api_key st))
    (fun _ => mret None).

(** Lines 103-130 on such contexts: the first step stands in the outer
    [try] alone, the two others in a [try] of their own. *)
Definition get_session_api_key_on (raising : gmap ctx_id exn)
    (context : ctx_id) : M pyval :=
  try_except
    (st ← read_context_state raising context;
     match state_api_key st with
     | Some v => mret v
     | None =>
         r ← request_store_step;
         match r with
         | Some v => mret v
         | None =>
             r' ← alternate_context_step_on raising;
             match r' with
             | Some v => mret v
             | None => mret PyNone
             end
         end
     end)
    (fun e => log DEBUG (MsgRetrieveFailed e);; mret PyNone).

(** ** The tools (server.py, lines 144-196) *)

(** A returned [dict], in insertion order. *)
Abbreviation pydict := (list (string * pyval)).

Fixpoint dict_get (d : pydict) (k : string) : option pyval :=
  match d with
  | [] => None
  | (k', v) :: d' => if String.eqb k' k then Some v else dict_get d' k
  end.

Definition missing_key_message : string :=
  "No API key found. Please authenticate with Authorization: Bearer YOUR_API_KEY".

(** Lines 145-172 *)
Definition example_tool (context : ctx_id) (query : string) : M pydict :=
  api_key ← get_session_api_key context;
  if negb (truthy api_key) then
    mret [("error", PyStr missing_key_message)]
  else
    ts ← datetime_now_isoformat;
    mret [("status", PyStr "success");
          ("message", PyStr "This is a placeholder. Implement your NASA Astronomy Picture of the Day logic here.");
          ("query", PyStr query);
          ("timestamp", PyStr ts)].

(** Lines 176-196 *)
Definition get_api_info (context : ctx_id) : M pydict :=
  api_key ← get_session_api_key context;
  let auth_status := if truthy api_key then "authenticated" else "not authenticated" in
  mret [("status", PyStr "ready");
        ("auth_status", PyStr auth_status);
        ("api_name", PyStr "NASA Astronomy Picture of the Day");
        ("api_url", PyStr "https://api.nasa.gov/planetary/apod");
        ("documentation", PyStr "https://api.nasa.gov/");
        ("description", PyStr "Nasa apod api integration for astronomy data");
        ("authentication", PyStr "Bearer token required in Authorization header")].

(** ** Readers of the stores *)

(** The credential slot of the request store, when there is a request. *)
Definition request_store_value (w : World) : option pyval :=
  match http_request w with
  | Ret rq => req_state rq !! "api_key"
  | Raise _ => None
  end.

(** The credential slot of the context [get_context()] gives, if any. *)
Definition alternate_context_value (w : World) : option pyval :=
  match current_context w with
  | Ret c => state_api_key (heap w !! c)
  | Raise _ => None
  end.

(** The credential slot of the context [get_context()] gives, when that
    context can be read at all. *)
Definition alternate_context_value_on (raising : gmap ctx_id exn) (w : World)
    : option pyval :=
  match current_context w with
  | Ret c =>
      match raising !! c with
      | Some _ => None
      | None => state_api_key (heap w !! c)
      end
  | Raise _ => None
  end.

(** What the two later steps of the chain come to. *)
Definition fallback_value_on (raising : gmap ctx_id exn) (w : World) : pyval :=
  match request_store_value w with
  | Some v => v
  | None =>
      match alternate_context_value_on raising w with
      | Some v => v
      | None => PyNone
      end
  end.

(** ** Worlds used below *)

(** One call with context [0], whose state (if it has one) is [ctx_state],
    and with the given outcome of [get_http_request()]. *)
Definition call_world (ctx_state : option attrs) (rq : result Request) : World :=
  mkWorld (match ctx_state with Some st => {[ 0 := st ]} | None => ∅ end)
          rq (Ret 0) "2026-01-01T00:00:00" [].

Definition post (hs : Headers) (st : attrs) : Request :=
  mkRequest "POST" "/mcp" hs st.

(** The context store holds an empty value, the request store a key. *)
Definition empty_slot_world : World :=
  call_world (Some {[ "api_key" := PyStr "" ]})
             (Ret (post [] {[ "api_key" := PyStr "k" ]})).

(** A bearer header with nothing but blanks after the prefix, next to an
    X-API-KEY header. *)
Definition blank_bearer_request : Request :=
  post [("authorization", "Bearer   "); ("x-api-key", "k")] ∅.

(** An X-API-KEY header with an empty value. *)
Definition empty_key_request : Request := post [("x-api-key", "")] ∅.

(** An X-API-KEY header, for a context that has no [state]. *)
Definition key_request : Request := post [("x-api-key", "k")] ∅.

(** The request store holds a key, and the [state] of context [0] raises. *)
Definition request_bound_world : World :=
  call_world None (Ret (post [] {[ "api_key" := PyStr "k" ]})).

Definition state_raises : gmap ctx_id exn :=
  {[ 0 := Exn "RuntimeError" "state is not available" ]}.

(** No store reachable from context [c] holds a credential. *)
Definition no_credential_bound (w : World) (c : ctx_id) : Prop :=
  (forall st, heap w !! c = Some st -> st !! "api_key" = None) /\
  (forall rq, http_request w = Ret rq -> req_state rq !! "api_key" = None) /\
  (forall c' st, current_context w = Ret c' -> heap w !! c' = Some st ->
                 st !! "api_key" = None).

(** The request state after a run, when there is a request. *)
Definition request_state_of (w : World) : option attrs :=
  match http_request w with
  | Ret rq => Some (req_state rq)
  | Raise _ => None
  end.

(** ** The entry point (server.py, lines 199-219) *)

Module Bootstrap.

(** The keyword arguments of [mcp.run]. *)
Record RunConfig : Type := mkRunConfig {
  transport : string;
  port : Z;
  host : string;
  path : string;
  log_level : string
}.

(** What [run_server] logs, in the order of the calls. *)
Inductive boot_record : Type :=
| InfoStarting
| InfoAuthentication
| InfoListen (port : Z)
| ErrorStarting (e : exn).

(** [os.getenv(key, dflt)] on the process environment. *)
Definition getenv (env : gmap string string) (key dflt : string) : string :=
  default dflt (env !! key).

(** Lines 199-219: [run_server()], given the builtin [int] on strings and
    what [mcp.run] does with its arguments: it returns, or it raises an
    instance of [Exception]. (A [KeyboardInterrupt] or a [SystemExit], which
    [except Exception] lets through without a record, is not described
    here.) The result is the outcome and the log, oldest record first. *)
Definition run_server (env : gmap string string)
    (py_int : string -> result Z) (mcp_run : RunConfig -> result unit)
    : result unit * list boot_record :=
  let log0 := [InfoStarting; InfoAuthentication] in
  match py_int (getenv env "PORT" "8000") with
  | Raise e => (Raise e, log0)
  | Ret port =>
      let log_level := getenv env "LOG_LEVEL" "INFO" in
      let log1 := log0 ++ [InfoListen port] in
      match mcp_run (mkRunConfig "streamable-http" port "0.0.0.0" "/mcp"
                       (PyStr.lower log_level)) with
      | Ret _ => (Ret tt, log1)
      | Raise e => (Raise e, log1 ++ [ErrorStarting e])
      end
  end.

(** A stand-in for [int] on plain decimal numerals, to run examples. *)
Fixpoint decimal_value (acc : Z) (s : string) : result Z :=
  match s with
  | EmptyString => Ret acc
  | String c r =>
      let n := nat_of_ascii c in
      if ((48 <=? n) && (n <=? 57))%nat
      then decimal_value (10 * acc + Z.of_nat (n - 48)) r
      else Raise (Exn "ValueError" "invalid literal for int() with base 10")
  end.

Definition decimal_int (s : string) : result Z :=
  match s with
  | EmptyString => Raise (Exn "ValueError" "invalid literal for int() with base 10")
  | _ => decimal_value 0 s
  end.

End Bootstrap.

(** ** An invariant of the stores *)

(** Every credential slot that is filled holds a non-empty string. *)
Definition slots_hold_credentials (w : World) : Prop :=
  (forall c st v, heap w !! c = Some st -> st !! "api_key" = Some v ->
                  truthy v = true) /\
  (forall rq v, http_request w = Ret rq -> req_state rq !! "api_key" = Some v ->
                truthy v = true).

(** The dictionary [example_tool] returns once a credential is there. *)
Definition placeholder_result (query ts : string) : pydict :=
  [("status", PyStr "success");
   ("message", PyStr "This is a placeholder. Implement your NASA Astronomy Picture of the Day logic here.");
   ("query", PyStr query);
   ("timestamp", PyStr ts)].

(** ** Unfolding the monad *)

Ltac run_M :=
  unfold mbind, mret, M_bind, M_ret, bind, ret, raise, try_except, log,
    get_http_request, get_context, context_state, set_context_api_key,
    set_request_api_key, datetime_now_isoformat, py_slice_to in *;
  simpl in *.

(** ** The string primitives on examples *)

Example lower_Bearer : PyStr.lower "BeArEr X" = "bearer x".
Proof. reflexivity. Qed.

Example strip_padded : PyStr.strip "   abc 123  " = "abc 123".
Proof. reflexivity. Qed.

Example strip_blank : PyStr.strip "    " = "".
Proof. reflexivity. Qed.

Example slice_from_7 : PyStr.slice_from 7 "Bearer abc123" = "abc123".
Proof. reflexivity. Qed.

(** ** Facts about the string primitives *)

Section StringFacts.

Lemma app_nil_l (s : string) : "" +:+ s = s.
Proof. reflexivity. Qed.

Lemma app_cons (c : ascii) (a s : string) :
  String c a +:+ s = String c (a +:+ s).
Proof. reflexivity. Qed.

Lemma lower_app (a b : string) :
  PyStr.lower (a +:+ b) = PyStr.lower a +:+ PyStr.lower b.
Proof.
  induction a as [|c a IH]; [reflexivity |].
  rewrite app_cons. simpl. now rewrite IH, app_cons.
Qed.

Lemma lower_length (s : string) : String.length (PyStr.lower s) = String.length s.
Proof. induction s as [|c s IH]; simpl; [reflexivity | now rewrite IH]. Qed.

Lemma slice_from_app (p s : string) :
  PyStr.slice_from (String.length p) (p +:+ s) = s.
Proof.
  induction p as [|c p IH]; [now destruct s |].
  rewrite app_cons. simpl. exact IH.
Qed.

Lemma lstrip_spaces (l s : string) :
  PyStr.all_space l = true -> PyStr.lstrip (l +:+ s) = PyStr.lstrip s.
Proof.
  induction l as [|c l IH]; [reflexivity |].
  intros H. simpl in H. apply andb_prop in H as [Hc Hl].
  rewrite app_cons. simpl. rewrite Hc. now apply IH.
Qed.

Lemma rstrip_all_space (r : string) :
  PyStr.all_space r = true -> PyStr.rstrip r = "".
Proof.
  induction r as [|c r IH]; simpl; [reflexivity |].
  intros [Hc Hr]%andb_prop. now rewrite (IH Hr), Hc.
Qed.

Lemma rstrip_spaces (s r : string) :
  PyStr.all_space r = true -> PyStr.rstrip (s +:+ r) = PyStr.rstrip s.
Proof.
  intros Hr. induction s as [|c s IH].
  - rewrite app_nil_l. now apply rstrip_all_space.
  - rewrite app_cons. simpl. now rewrite IH.
Qed.

Lemma lstrip_length (s : string) :
  PyStr.lstrip s = s \/ String.length (PyStr.lstrip s) < String.length s.
Proof.
  induction s as [|c s IH]; simpl; [now left |].
  destruct (PyStr.isspace c); [right | now left].
  destruct IH as [-> | IH]; lia.
Qed.

Lemma rstrip_length (s : string) :
  String.length (PyStr.rstrip s) <= String.length s.
Proof.
  induction s as [|c s IH]; simpl; [lia |].
  destruct (PyStr.rstrip s); simpl in *; [destruct (PyStr.isspace c); simpl |]; lia.
Qed.

(** A string that [strip] leaves alone has no whitespace at either end. *)
Lemma strip_fixed (x : string) :
  PyStr.strip x = x -> PyStr.lstrip x = x /\ PyStr.rstrip x = x.
Proof.
  unfold PyStr.strip. intros H.
  destruct (lstrip_length x) as [E | L].
  - split; [assumption | now rewrite E in H].
  - pose proof (rstrip_length (PyStr.lstrip x)) as R.
    rewrite H in R. lia.
Qed.

(** Whitespace around a stripped token goes, the token stays. *)
Lemma strip_padded_token (l x r : string) :
  PyStr.all_space l = true -> PyStr.all_space r = true ->
  PyStr.strip x = x ->
  PyStr.strip (l +:+ x +:+ r) = x.
Proof.
  intros Hl Hr Hx. destruct (strip_fixed x Hx) as [HL HR].
  unfold PyStr.strip. rewrite lstrip_spaces by assumption.
  destruct x as [|c x].
  - rewrite app_nil_l.
    assert (PyStr.lstrip r = "") as ->; [| reflexivity].
    clear -Hr. induction r as [|c r IH]; simpl in *; [reflexivity |].
    apply andb_prop in Hr as [Hc Hr']. rewrite Hc. now apply IH.
  - rewrite app_cons. simpl in HL |- *. destruct (PyStr.isspace c) eqn:Hc.
    + pose proof (lstrip_length x) as [E | L]; rewrite HL in *; simpl in *;
        [apply (f_equal String.length) in E; simpl in E |]; lia.
    + rewrite <- app_cons. now rewrite rstrip_spaces.
Qed.

(** The header value [Bearer] (in any case), a space, padding, the token,
    padding: the prefix matches and what follows it strips to the token. *)
Lemma bearer_header_shape (p l x r : string) :
  PyStr.lower p = "bearer" ->
  PyStr.all_space l = true -> PyStr.all_space r = true ->
  PyStr.strip x = x ->
  let auth := p +:+ " " +:+ l +:+ x +:+ r in
  PyStr.startswith (PyStr.lower auth) "bearer " = true /\
  PyStr.strip (PyStr.slice_from 7 auth) = x.
Proof.
  intros Hp Hl Hr Hx auth. subst auth. split.
  - rewrite lower_app, Hp, (lower_app " ").
    change (PyStr.lower " ") with " ". reflexivity.
  - assert (String.length p = 6) as Hlen
        by (rewrite <- lower_length, Hp; reflexivity).
    destruct p as [|c1 [|c2 [|c3 [|c4 [|c5 [|c6 [|c7 p]]]]]]]; try discriminate.
    now apply strip_padded_token.
Qed.

Lemma truthy_PyStr (s : string) : truthy (PyStr s) = true <-> s <> "".
Proof. destruct s; simpl; split; congruence. Qed.

Lemma truthy_is_str (v : pyval) :
  truthy v = true -> exists s, v = PyStr s /\ s <> "".
Proof.
  destruct v as [|s]; simpl; [discriminate |].
  intros H. exists s. split; [reflexivity | now apply truthy_PyStr].
Qed.

End StringFacts.

(** ** How the resolver and the middleware run *)

Section ResolverRuns.

Variable w : World.

Lemma request_store_step_run :
  request_store_step w = (Ret (request_store_value w), w).
Proof.
  unfold request_store_step, request_store_value. run_M.
  destruct (http_request w); reflexivity.
Qed.

Lemma alternate_context_step_run :
  alternate_context_step w = (Ret (alternate_context_value w), w).
Proof.
  unfold alternate_context_step, alternate_context_value. run_M.
  destruct (current_context w); reflexivity.
Qed.

Lemma resolver_context_hit (c : ctx_id) (v : pyval) :
  state_api_key (heap w !! c) = Some v ->
  get_session_api_key c w = (Ret v, w).
Proof.
  intros H. unfold get_session_api_key.
  unfold try_except, mbind, M_bind, bind at 1, context_state.
  rewrite H. reflexivity.
Qed.

Lemma resolver_request_hit (c : ctx_id) (v : pyval) :
  state_api_key (heap w !! c) = None ->
  request_store_value w = Some v ->
  get_session_api_key c w = (Ret v, w).
Proof.
  intros H1 H2. unfold get_session_api_key.
  unfold try_except, mbind, M_bind, bind at 1, context_state.
  rewrite H1. unfold bind. rewrite request_store_step_run, H2. reflexivity.
Qed.

Lemma resolver_alternate (c : ctx_id) :
  state_api_key (heap w !! c) = None ->
  request_store_value w = None ->
  get_session_api_key c w
  = (Ret (match alternate_context_value w with Some v => v | None => PyNone end), w).
Proof.
  intros H1 H2. unfold get_session_api_key.
  unfold try_except, mbind, M_bind, bind at 1, context_state.
  rewrite H1. unfold bind.
  rewrite request_store_step_run, H2, alternate_context_step_run.
  destruct (alternate_context_value w); reflexivity.
Qed.

(** The resolver always returns, and leaves the world as it found it. *)
Lemma resolver_returns (c : ctx_id) :
  exists v, get_session_api_key c w = (Ret v, w).
Proof.
  destruct (state_api_key (heap w !! c)) as [v|] eqn:H1.
  { exists v. now apply resolver_context_hit. }
  destruct (request_store_value w) as [v|] eqn:H2.
  { exists v. now apply resolver_request_hit. }
  eexists. now apply resolver_alternate.
Qed.

End ResolverRuns.

(** A [try] whose handler only logs returns whatever its body does: an
    exception of the body becomes one debug record. *)
Lemma try_except_log_returns (body : M unit) (w : World) :
  match body w with
  | (Ret _, w1) =>
      try_except body (fun e => log DEBUG (MsgExtractFailed e)) w = (Ret tt, w1)
  | (Raise e, w1) =>
      try_except body (fun e => log DEBUG (MsgExtractFailed e)) w
      = (Ret tt, set_events w1 (EvLog DEBUG (MsgExtractFailed e) :: events w1))
  end.
Proof.
  unfold try_except, log. destruct (body w) as [[[]|e] w1]; reflexivity.
Qed.

Section MiddlewareRuns.

Import AuthMiddleware.

Variable w : World.
Variable c : ctx_id.

(** Without a request the handler logs the failure and nothing else
    changes. *)
Lemma guarded_no_request (e : exn) :
  http_request w = Raise e ->
  guarded_extract_and_bind c w
  = (Ret tt, set_events w (EvLog DEBUG (MsgExtractFailed e) :: events w)).
Proof.
  intros H. unfold guarded_extract_and_bind, extract_and_bind. run_M.
  rewrite H. reflexivity.
Qed.

(** A falsy token: three log records, no store written. *)
Lemma guarded_no_token (rq : Request) :
  http_request w = Ret rq ->
  truthy (extract_token rq) = false ->
  guarded_extract_and_bind c w
  = (Ret tt,
     set_events w
       (EvLog WARNING MsgNoApiKey
        :: EvLog INFO (MsgMethodUrl (req_method rq) (req_url rq))
        :: EvLog INFO (MsgReceivedHeaders (headers_dict (req_headers rq)))
        :: events w)).
Proof.
  intros H Ht. unfold guarded_extract_and_bind, extract_and_bind, bind_token.
  run_M. rewrite H. simpl. rewrite Ht. reflexivity.
Qed.

(** A truthy token and a context with a state: the context state gets it. *)
Lemma guarded_bind_context (rq : Request) (st : attrs) (s : string) :
  http_request w = Ret rq ->
  extract_token rq = PyStr s -> s <> "" ->
  heap w !! c = Some st ->
  guarded_extract_and_bind c w
  = (Ret tt,
     mkWorld (<[c := <["api_key" := PyStr s]> st]> (heap w))
       (http_request w) (current_context w) (clock w)
       (EvLog INFO (MsgBoundContext (PyStr.slice_to 10 s))
        :: EvLog INFO (MsgMethodUrl (req_method rq) (req_url rq))
        :: EvLog INFO (MsgReceivedHeaders (headers_dict (req_headers rq)))
        :: events w)).
Proof.
  intros H Ht Hs Hc. unfold guarded_extract_and_bind, extract_and_bind, bind_token.
  run_M. rewrite H. simpl. rewrite Ht.
  destruct s as [|a s]; [congruence |]. simpl. rewrite Hc. simpl. rewrite Hc.
  unfold set_heap, set_events. simpl. rewrite H. reflexivity.
Qed.

(** A truthy token and a context without a state: the request state gets
    it. *)
Lemma guarded_bind_request (rq : Request) (s : string) :
  http_request w = Ret rq ->
  extract_token rq = PyStr s -> s <> "" ->
  heap w !! c = None ->
  guarded_extract_and_bind c w
  = (Ret tt,
     mkWorld (heap w)
       (Ret (mkRequest (req_method rq) (req_url rq) (req_headers rq)
               (<["api_key" := PyStr s]> (req_state rq))))
       (current_context w) (clock w)
       (EvLog INFO (MsgBoundRequest (PyStr.slice_to 10 s))
        :: EvLog INFO (MsgMethodUrl (req_method rq) (req_url rq))
        :: EvLog INFO (MsgReceivedHeaders (headers_dict (req_headers rq)))
        :: events w)).
Proof.
  intros H Ht Hs Hc. unfold guarded_extract_and_bind, extract_and_bind, bind_token.
  run_M. rewrite H. simpl. rewrite Ht.
  destruct s as [|a s]; [congruence |]. simpl. rewrite Hc. simpl. rewrite H.
  reflexivity.
Qed.

(** The guarded block never raises. *)
Lemma guarded_returns : fst (guarded_extract_and_bind c w) = Ret tt.
Proof.
  destruct (http_request w) as [rq|e] eqn:H.
  2: { now rewrite (guarded_no_request e). }
  destruct (truthy (extract_token rq)) eqn:Ht.
  2: { now rewrite (guarded_no_token rq). }
  destruct (truthy_is_str _ Ht) as (s & Es & Hs).
  destruct (heap w !! c) as [st|] eqn:Hc.
  - now rewrite (guarded_bind_context rq st s).
  - now rewrite (guarded_bind_request rq s).
Qed.

Lemma on_request_run {R} (call_next : ctx_id -> M R) :
  on_request c call_next w = call_next c (snd (guarded_extract_and_bind c w)).
Proof.
  unfold on_request. unfold mbind, M_bind, bind.
  pose proof guarded_returns as H.
  destruct (guarded_extract_and_bind c w) as [[[]|e] w']; simpl in *;
    [reflexivity | discriminate].
Qed.

(** A truthy token bound by the middleware is what the resolver then
    returns for the same context. *)
Lemma bound_then_resolved (rq : Request) (s : string) :
  http_request w = Ret rq ->
  extract_token rq = PyStr s -> s <> "" ->
  fst (on_request c get_session_api_key w) = Ret (PyStr s).
Proof.
  intros H Ht Hs. rewrite on_request_run.
  destruct (heap w !! c) as [st|] eqn:Hc.
  - rewrite (guarded_bind_context rq st s) by assumption. simpl.
    rewrite (resolver_context_hit _ c (PyStr s)); [reflexivity |].
    simpl. rewrite lookup_insert_eq. simpl. apply lookup_insert_eq.
  - rewrite (guarded_bind_request rq s) by assumption. simpl.
    rewrite (resolver_request_hit _ c (PyStr s)); [reflexivity | |].
    + simpl. now rewrite Hc.
    + unfold request_store_value. simpl. apply lookup_insert_eq.
Qed.

End MiddlewareRuns.

(** ** The resolver's fallback chain *)

Lemma no_state_key_iff (w : World) (c : ctx_id) :
  state_api_key (heap w !! c) = None <->
  (forall st, heap w !! c = Some st -> st !! "api_key" = None).
Proof.
  destruct (heap w !! c) as [st|]; simpl; split; intros H; try congruence.
  now apply H.
Qed.

(** C1, as the code has it: when the context's store holds [api_key], the
    resolver returns the value stored there, whatever it is (an empty one
    too), and the world is untouched; only when the context has no store or
    the key is absent does the chain go on, to the request store first, then
    to the context of [get_context()], then to [None]. *)
Theorem C1_resolver_first_success (w : World) (c : ctx_id) :
  (forall st v, heap w !! c = Some st -> st !! "api_key" = Some v ->
                get_session_api_key c w = (Ret v, w)) /\
  ((forall st, heap w !! c = Some st -> st !! "api_key" = None) ->
   (forall v, fst (request_store_step w) = Ret (Some v) ->
              get_session_api_key c w = (Ret v, w)) /\
   (forall v, fst (request_store_step w) = Ret None ->
              fst (alternate_context_step w) = Ret (Some v) ->
              get_session_api_key c w = (Ret v, w)) /\
   (fst (request_store_step w) = Ret None ->
    fst (alternate_context_step w) = Ret None ->
    get_session_api_key c w = (Ret PyNone, w))).
Proof.
  split.
  - intros st v Hc Hk. apply resolver_context_hit. now rewrite Hc.
  - intros Hmiss%no_state_key_iff.
    rewrite request_store_step_run, alternate_context_step_run. simpl.
    split; [| split].
    + intros v [= E]. now apply resolver_request_hit.
    + intros v [= E1] [= E2]. rewrite resolver_alternate by assumption.
      now rewrite E2.
    + intros [= E1] [= E2]. rewrite resolver_alternate by assumption.
      now rewrite E2.
Qed.

Lemma C1_resolver_first_success_witness :
  get_session_api_key 0 empty_slot_world = (Ret (PyStr ""), empty_slot_world).
Proof.
  apply (proj1 (C1_resolver_first_success empty_slot_world 0)
           {[ "api_key" := PyStr "" ]} (PyStr "")); reflexivity.
Defined.

(** C1 as written fails: the context store holds [api_key] with an empty
    value and the request store holds ["k"]; the claim has the resolver go
    on to the request store, the code returns the empty value. *)
Lemma C1_empty_value_is_returned :
  heap empty_slot_world !! 0 = Some {[ "api_key" := PyStr "" ]} /\
  truthy (PyStr "") = false /\
  fst (request_store_step empty_slot_world) = Ret (Some (PyStr "k")) /\
  fst (get_session_api_key 0 empty_slot_world) = Ret (PyStr "") /\
  fst (get_session_api_key 0 empty_slot_world) <> Ret (PyStr "k").
Proof. repeat split; try reflexivity. discriminate. Qed.

(** ** Extraction from the headers *)

(** C2, as the code has it: when the Authorization value starts with
    ["bearer "] in any case and what follows the 7 characters does not strip
    to the empty string, the token is that remainder stripped, and it is what
    the resolver returns after the middleware ran; in particular a header
    made of [Bearer], a space, blanks, a token [x] without blanks at its ends
    and blanks resolves to [x]. *)
Theorem C2_bearer_token_trimmed (w : World) (c : ctx_id) (rq : Request) :
  http_request w = Ret rq ->
  let auth := headers_get (req_headers rq) "Authorization" "" in
  (PyStr.startswith (PyStr.lower auth) "bearer " = true ->
   PyStr.strip (PyStr.slice_from 7 auth) <> "" ->
   AuthMiddleware.bearer_token auth = PyStr (PyStr.strip (PyStr.slice_from 7 auth)) /\
   AuthMiddleware.extract_token rq = PyStr (PyStr.strip (PyStr.slice_from 7 auth)) /\
   fst (AuthMiddleware.on_request c get_session_api_key w)
   = Ret (PyStr (PyStr.strip (PyStr.slice_from 7 auth)))) /\
  (forall p l x r,
     auth = p +:+ " " +:+ l +:+ x +:+ r ->
     PyStr.lower p = "bearer" ->
     PyStr.all_space l = true -> PyStr.all_space r = true ->
     PyStr.strip x = x -> x <> "" ->
     fst (AuthMiddleware.on_request c get_session_api_key w) = Ret (PyStr x)).
Proof.
  intros Hrq auth.
  assert (PyStr.startswith (PyStr.lower auth) "bearer " = true ->
          PyStr.strip (PyStr.slice_from 7 auth) <> "" ->
          AuthMiddleware.extract_token rq
          = PyStr (PyStr.strip (PyStr.slice_from 7 auth))) as Hex.
  { intros Hp Hne. unfold AuthMiddleware.extract_token, AuthMiddleware.bearer_token.
    fold auth. rewrite Hp.
    apply truthy_PyStr in Hne. now rewrite Hne. }
  split.
  - intros Hp Hne. split; [| split].
    + unfold AuthMiddleware.bearer_token. now rewrite Hp.
    + now apply Hex.
    + apply (bound_then_resolved w c rq); auto.
  - intros p l x r Ha Hlow Hl Hr Hx Hne.
    destruct (bearer_header_shape p l x r Hlow Hl Hr Hx) as [Hp Hs].
    rewrite <- Ha in Hp, Hs.
    apply (bound_then_resolved w c rq); auto.
    rewrite Hex; [now rewrite Hs | assumption | now rewrite Hs].
Qed.

Lemma C2_bearer_token_trimmed_witness :
  fst (AuthMiddleware.on_request 0 get_session_api_key
         (call_world (Some ∅) (Ret (post [("authorization", "BeArEr   abc123  ")] ∅))))
  = Ret (PyStr "abc123").
Proof.
  apply (proj2 (C2_bearer_token_trimmed
                  (call_world (Some ∅) (Ret (post [("authorization", "BeArEr   abc123  ")] ∅)))
                  0 (post [("authorization", "BeArEr   abc123  ")] ∅) eq_refl)
           "BeArEr" "  " "abc123" "  "); try reflexivity.
  discriminate.
Defined.

(** C2 as written fails: the Authorization value matches the prefix, what
    follows strips to the empty string, and the credential the middleware
    extracts and binds is the X-API-KEY value, not that remainder. *)
Lemma C2_blank_bearer_yields_other_header :
  let auth := headers_get (req_headers blank_bearer_request) "Authorization" "" in
  PyStr.startswith (PyStr.lower auth) "bearer " = true /\
  PyStr.strip (PyStr.slice_from 7 auth) = "" /\
  AuthMiddleware.extract_token blank_bearer_request = PyStr "k" /\
  AuthMiddleware.extract_token blank_bearer_request
  <> PyStr (PyStr.strip (PyStr.slice_from 7 auth)) /\
  fst (AuthMiddleware.on_request 0 get_session_api_key
         (call_world (Some ∅) (Ret blank_bearer_request)))
  = Ret (PyStr "k").
Proof. repeat split; try reflexivity. discriminate. Qed.

(** C3, as the code has it: without a matching bearer header the token is
    the X-API-KEY value [y] as it stands, no character removed; when [y] is
    not empty it is bound, and the resolver returns [y] exactly. *)
Theorem C3_x_api_key_verbatim (w : World) (c : ctx_id) (rq : Request) (y : string) :
  http_request w = Ret rq ->
  PyStr.startswith
    (PyStr.lower (headers_get (req_headers rq) "Authorization" "")) "bearer "
  = false ->
  headers_get (req_headers rq) "X-API-KEY" "" = y ->
  AuthMiddleware.extract_token rq = PyStr y /\
  (y <> "" ->
   fst (AuthMiddleware.on_request c get_session_api_key w) = Ret (PyStr y)).
Proof.
  intros Hrq Hp Hy.
  assert (AuthMiddleware.extract_token rq = PyStr y) as Hex.
  { unfold AuthMiddleware.extract_token, AuthMiddleware.bearer_token.
    rewrite Hp. simpl. now rewrite Hy. }
  split; [exact Hex |].
  intros Hne. now apply (bound_then_resolved w c rq).
Qed.

Lemma C3_x_api_key_verbatim_witness :
  fst (AuthMiddleware.on_request 0 get_session_api_key
         (call_world None (Ret (post [("X-Api-Key", "  zzz ")] ∅))))
  = Ret (PyStr "  zzz ").
Proof.
  apply (proj2 (C3_x_api_key_verbatim
                  (call_world None (Ret (post [("X-Api-Key", "  zzz ")] ∅)))
                  0 (post [("X-Api-Key", "  zzz ")] ∅) "  zzz "
                  eq_refl eq_refl eq_refl)).
  discriminate.
Defined.

(** C3 as written fails: the request carries an X-API-KEY header whose
    value is empty and no Authorization header; nothing is bound, and the
    resolver reports absence, not the empty value. *)
Lemma C3_empty_key_is_not_bound :
  req_headers empty_key_request = [("x-api-key", "")] /\
  headers_get (req_headers empty_key_request) "X-API-KEY" "absent" = "" /\
  AuthMiddleware.extract_token empty_key_request = PyStr "" /\
  fst (AuthMiddleware.on_request 0 get_session_api_key
         (call_world (Some ∅) (Ret empty_key_request)))
  = Ret PyNone /\
  fst (AuthMiddleware.on_request 0 get_session_api_key
         (call_world (Some ∅) (Ret empty_key_request)))
  <> Ret (PyStr "").
Proof. repeat split; try reflexivity. discriminate. Qed.

(** The resolver reads the stores only: two worlds with the same stores and
    accessors give the same answer. *)
Lemma resolver_reads_stores (w1 w2 : World) (c : ctx_id) :
  heap w1 = heap w2 -> http_request w1 = http_request w2 ->
  current_context w1 = current_context w2 ->
  fst (get_session_api_key c w1) = fst (get_session_api_key c w2).
Proof.
  intros Hh Hr Hc.
  assert (request_store_value w1 = request_store_value w2) as E2
      by (unfold request_store_value; now rewrite Hr).
  assert (alternate_context_value w1 = alternate_context_value w2) as E3
      by (unfold alternate_context_value; now rewrite Hc, Hh).
  destruct (state_api_key (heap w1 !! c)) as [v|] eqn:H1.
  { rewrite (resolver_context_hit w1 c v H1).
    rewrite Hh in H1. now rewrite (resolver_context_hit w2 c v H1). }
  destruct (request_store_value w1) as [v|] eqn:H2.
  { rewrite (resolver_request_hit w1 c v H1 H2).
    rewrite Hh in H1. symmetry in E2.
    now rewrite (resolver_request_hit w2 c v H1 E2). }
  rewrite (resolver_alternate w1 c H1 H2).
  rewrite Hh in H1. symmetry in E2.
  rewrite (resolver_alternate w2 c H1 E2). now rewrite E3.
Qed.

Lemma unbound_resolves_to_None (w : World) (c : ctx_id) :
  no_credential_bound w c -> get_session_api_key c w = (Ret PyNone, w).
Proof.
  intros (H1 & H2 & H3).
  apply no_state_key_iff in H1.
  assert (request_store_value w = None) as E2.
  { unfold request_store_value. destruct (http_request w) as [rq|]; auto. }
  assert (alternate_context_value w = None) as E3.
  { unfold alternate_context_value.
    destruct (current_context w) as [c'|]; [| reflexivity].
    apply no_state_key_iff. intros st. now apply H3. }
  rewrite (resolver_alternate w c H1 E2). now rewrite E3.
Qed.

(** ** Absence and failures *)

Lemma read_context_state_plain (raising : gmap ctx_id exn) (w : World) (c : ctx_id) :
  raising !! c = None ->
  read_context_state raising c w = (Ret (heap w !! c), w).
Proof. intros H. unfold read_context_state. now rewrite H. Qed.

Lemma alternate_context_step_on_run (raising : gmap ctx_id exn) (w : World) :
  alternate_context_step_on raising w
  = (Ret (alternate_context_value_on raising w), w).
Proof.
  unfold alternate_context_step_on, alternate_context_value_on,
    read_context_state. run_M.
  destruct (current_context w) as [c'|e]; simpl; [| reflexivity].
  destruct (raising !! c') as [e|]; [| reflexivity].
  destruct (String.eqb (exn_class e) "AttributeError"); reflexivity.
Qed.

(** The chain once the first step has missed. *)
Lemma resolver_on_miss (raising : gmap ctx_id exn) (w : World) (c : ctx_id) :
  fst (read_context_state raising c w) = Ret None \/
  (exists st, fst (read_context_state raising c w) = Ret (Some st) /\
              st !! "api_key" = None) ->
  get_session_api_key_on raising c w = (Ret (fallback_value_on raising w), w).
Proof.
  intros H.
  assert (exists o, read_context_state raising c w = (Ret o, w) /\
                    state_api_key o = None) as (o & Hr & Ho).
  { unfold read_context_state in *.
    destruct (raising !! c) as [e|].
    - destruct (String.eqb (exn_class e) "AttributeError"); simpl in H.
      + exists None. split; reflexivity.
      + destruct H as [H | (st & H & _)]; discriminate.
    - unfold context_state in *. simpl in H.
      destruct H as [H | (st & H & Hk)]; injection H as H; rewrite H.
      + exists None. split; reflexivity.
      + exists (Some st). split; [reflexivity | exact Hk]. }
  unfold get_session_api_key_on, fallback_value_on.
  unfold try_except, mbind, M_bind, bind at 1. rewrite Hr, Ho.
  unfold bind. rewrite request_store_step_run.
  destruct (request_store_value w) as [v|]; [reflexivity |].
  rewrite alternate_context_step_on_run.
  destruct (alternate_context_value_on raising w); reflexivity.
Qed.

Lemma resolver_on_hit (raising : gmap ctx_id exn) (w : World) (c : ctx_id)
    (v : pyval) :
  raising !! c = None -> state_api_key (heap w !! c) = Some v ->
  get_session_api_key_on raising c w = (Ret v, w).
Proof.
  intros Hr Hv. unfold get_session_api_key_on.
  unfold try_except, mbind, M_bind, bind at 1.
  rewrite (read_context_state_plain raising w c Hr), Hv. reflexivity.
Qed.

(** A first step that raises goes to the outer handler. *)
Lemma resolver_on_raise (raising : gmap ctx_id exn) (w : World) (c : ctx_id)
    (e : exn) :
  raising !! c = Some e -> exn_class e <> "AttributeError" ->
  get_session_api_key_on raising c w
  = (Ret PyNone, set_events w (EvLog DEBUG (MsgRetrieveFailed e) :: events w)).
Proof.
  intros Hr Hc. apply String.eqb_neq in Hc.
  unfold get_session_api_key_on.
  unfold try_except, mbind, M_bind, bind at 1. unfold read_context_state.
  rewrite Hr, Hc. reflexivity.
Qed.

Lemma resolver_on_returns (raising : gmap ctx_id exn) (w : World) (c : ctx_id) :
  exists v w', get_session_api_key_on raising c w = (Ret v, w').
Proof.
  destruct (raising !! c) as [e|] eqn:Hr.
  - destruct (String.eqb (exn_class e) "AttributeError") eqn:Hc.
    + eexists _, _. apply resolver_on_miss. left.
      unfold read_context_state. now rewrite Hr, Hc.
    + apply String.eqb_neq in Hc. eexists _, _.
      apply (resolver_on_raise raising w c e Hr Hc).
  - destruct (state_api_key (heap w !! c)) as [v|] eqn:Hv.
    + eexists _, _. apply (resolver_on_hit raising w c v Hr Hv).
    + eexists _, _. apply resolver_on_miss.
      rewrite (read_context_state_plain raising w c Hr). simpl.
      destruct (heap w !! c) as [st|]; [right | now left].
      exists st. split; [reflexivity | exact Hv].
Qed.

Lemma unbound_resolves_to_None_on (raising : gmap ctx_id exn) (w : World)
    (c : ctx_id) :
  no_credential_bound w c ->
  fst (get_session_api_key_on raising c w) = Ret PyNone.
Proof.
  intros (H1 & H2 & H3).
  assert (fallback_value_on raising w = PyNone) as Hf.
  { unfold fallback_value_on.
    assert (request_store_value w = None) as ->.
    { unfold request_store_value. destruct (http_request w) as [rq|]; auto. }
    assert (alternate_context_value_on raising w = None) as ->; [| reflexivity].
    unfold alternate_context_value_on.
    destruct (current_context w) as [c'|]; [| reflexivity].
    destruct (raising !! c'); [reflexivity |].
    apply no_state_key_iff. intros st. now apply H3. }
  destruct (raising !! c) as [e|] eqn:Hr.
  - destruct (String.eqb (exn_class e) "AttributeError") eqn:Hc.
    + rewrite resolver_on_miss; [now rewrite Hf |]. left.
      unfold read_context_state. now rewrite Hr, Hc.
    + apply String.eqb_neq in Hc.
      now rewrite (resolver_on_raise raising w c e Hr Hc).
  - rewrite resolver_on_miss; [now rewrite Hf |].
    rewrite (read_context_state_plain raising w c Hr). simpl.
    destruct (heap w !! c) as [st|] eqn:Hh; [right | now left].
    exists st. split; [reflexivity | now apply H1].
Qed.

(** C4, as the code has it: the resolver never raises, whatever the
    accessors and the context do, and with no credential bound in any store
    it returns [None]. The request-store step and the alternate-context step
    each turn their own failure into a miss, so that a failing
    [get_http_request()] leads on to [get_context()], and a failing
    [get_context()], or a context there whose [state] raises, leads to
    [None]. The context-store step has no [try] of its own: a context
    without the expected shape is a miss that leads on to the request store,
    but when reading its [state] raises anything other than
    [AttributeError], the outer handler logs it at debug level and the
    resolver returns [None] at once, whatever the other stores hold. On
    contexts that do not raise this is [get_session_api_key]. After a
    request without either header, on stores that held nothing, the resolver
    reports absence. *)
Theorem C4_failure_boundaries (raising : gmap ctx_id exn) (w : World) (c : ctx_id) :
  (exists v w', get_session_api_key_on raising c w = (Ret v, w')) /\
  (no_credential_bound w c ->
   fst (get_session_api_key_on raising c w) = Ret PyNone) /\
  (exists r, request_store_step w = (Ret r, w)) /\
  (exists r, alternate_context_step_on raising w = (Ret r, w)) /\
  (forall e, http_request w = Raise e ->
             fst (request_store_step w) = Ret None) /\
  (forall e, current_context w = Raise e ->
             fst (alternate_context_step_on raising w) = Ret None) /\
  (forall c' e, current_context w = Ret c' -> raising !! c' = Some e ->
                fst (alternate_context_step_on raising w) = Ret None) /\
  (forall v,
     raising !! c = None -> heap w !! c = None ->
     fst (request_store_step w) = Ret (Some v) ->
     fst (get_session_api_key_on raising c w) = Ret v) /\
  (forall e v,
     raising !! c = Some e -> exn_class e = "AttributeError" ->
     fst (request_store_step w) = Ret (Some v) ->
     fst (get_session_api_key_on raising c w) = Ret v) /\
  (forall e c' st v,
     raising !! c = None ->
     (forall st, heap w !! c = Some st -> st !! "api_key" = None) ->
     http_request w = Raise e ->
     current_context w = Ret c' -> raising !! c' = None ->
     heap w !! c' = Some st -> st !! "api_key" = Some v ->
     fst (get_session_api_key_on raising c w) = Ret v) /\
  (forall e,
     raising !! c = Some e -> exn_class e <> "AttributeError" ->
     get_session_api_key_on raising c w
     = (Ret PyNone,
        set_events w (EvLog DEBUG (MsgRetrieveFailed e) :: events w))) /\
  (raising !! c = None ->
   (forall c', current_context w = Ret c' -> raising !! c' = None) ->
   get_session_api_key_on raising c w = get_session_api_key c w) /\
  (forall rq,
     no_credential_bound w c -> http_request w = Ret rq ->
     headers_get (req_headers rq) "Authorization" "" = "" ->
     headers_get (req_headers rq) "X-API-KEY" "" = "" ->
     fst (AuthMiddleware.on_request c (get_session_api_key_on raising) w)
     = Ret PyNone).
Proof.
  split; [apply resolver_on_returns |].
  split; [apply unbound_resolves_to_None_on |].
  split; [eexists; apply request_store_step_run |].
  split; [eexists; apply alternate_context_step_on_run |].
  split.
  { intros e He. rewrite request_store_step_run. unfold request_store_value.
    now rewrite He. }
  split.
  { intros e He. rewrite alternate_context_step_on_run.
    unfold alternate_context_value_on. now rewrite He. }
  split.
  { intros c' e Hc' He. rewrite alternate_context_step_on_run.
    unfold alternate_context_value_on. now rewrite Hc', He. }
  split.
  { intros v Hr Hc. rewrite request_store_step_run. intros [= E].
    rewrite resolver_on_miss.
    - unfold fallback_value_on. now rewrite E.
    - left. rewrite (read_context_state_plain raising w c Hr). simpl.
      now rewrite Hc. }
  split.
  { intros e v Hr Hc. rewrite request_store_step_run. intros [= E].
    rewrite resolver_on_miss.
    - unfold fallback_value_on. now rewrite E.
    - left. unfold read_context_state. rewrite Hr, Hc. reflexivity. }
  split.
  { intros e c' st v Hr Hmiss He Hc' Hr' Hst Hv.
    rewrite resolver_on_miss.
    - unfold fallback_value_on, request_store_value, alternate_context_value_on.
      rewrite He, Hc', Hr', Hst. simpl. now rewrite Hv.
    - rewrite (read_context_state_plain raising w c Hr). simpl.
      destruct (heap w !! c) as [st0|] eqn:Hh; [right | now left].
      exists st0. split; [reflexivity | now apply Hmiss]. }
  split; [apply resolver_on_raise |].
  split.
  { intros Hr Hall.
    assert (alternate_context_value_on raising w = alternate_context_value w) as Ea.
    { unfold alternate_context_value_on, alternate_context_value.
      destruct (current_context w) as [c'|] eqn:Hc'; [| reflexivity].
      now rewrite (Hall c' eq_refl). }
    destruct (state_api_key (heap w !! c)) as [v|] eqn:Hv.
    - rewrite (resolver_on_hit raising w c v Hr Hv).
      now rewrite (resolver_context_hit w c v Hv).
    - rewrite resolver_on_miss.
      + unfold fallback_value_on. rewrite Ea.
        destruct (request_store_value w) as [v|] eqn:E2.
        * now rewrite (resolver_request_hit w c v Hv E2).
        * now rewrite (resolver_alternate w c Hv E2).
      + rewrite (read_context_state_plain raising w c Hr). simpl.
        destruct (heap w !! c) as [st|]; [right | now left].
        exists st. split; [reflexivity | exact Hv]. }
  intros rq Hun Hrq Ha Hx.
  rewrite on_request_run.
  rewrite (guarded_no_token w c rq Hrq).
  - simpl. apply unbound_resolves_to_None_on. exact Hun.
  - unfold AuthMiddleware.extract_token. rewrite Ha, Hx. reflexivity.
Qed.

Lemma C4_failure_boundaries_witness :
  get_session_api_key_on state_raises 0 request_bound_world
  = (Ret PyNone,
     set_events request_bound_world
       (EvLog DEBUG (MsgRetrieveFailed (Exn "RuntimeError" "state is not available"))
        :: events request_bound_world)).
Proof.
  refine (proj1 (proj2 (proj2 (proj2 (proj2 (proj2 (proj2 (proj2 (proj2 (proj2
            (proj2 (C4_failure_boundaries state_raises request_bound_world 0)))))))))))
            (Exn "RuntimeError" "state is not available") _ _);
    [reflexivity | discriminate].
Defined.

(** C4 as written fails for the context-store step: reading the [state] of
    the context raises a [RuntimeError] while the request store holds ["k"];
    the claim has the next step tried, the code returns [None] from the
    outer handler and the request store is never read. With a context that
    merely lacks a [state] the same world resolves to ["k"]. *)
Lemma C4_raising_context_store_ends_chain :
  state_raises !! 0 = Some (Exn "RuntimeError" "state is not available") /\
  fst (request_store_step request_bound_world) = Ret (Some (PyStr "k")) /\
  fst (get_session_api_key_on state_raises 0 request_bound_world) = Ret PyNone /\
  fst (get_session_api_key_on state_raises 0 request_bound_world)
  <> Ret (PyStr "k") /\
  fst (get_session_api_key_on ∅ 0 request_bound_world) = Ret (PyStr "k").
Proof. repeat split; try reflexivity. discriminate. Qed.

(** C5: when the resolver reports absence, [example_tool] returns (it does
    not raise) the dictionary whose only field is [error]; the message names
    the header to send; the clock is not read and the world is as it was, so
    nothing after the check has run. *)
Theorem C5_missing_credential_error (w : World) (c : ctx_id) (query : string) :
  fst (get_session_api_key c w) = Ret PyNone ->
  example_tool c query w = (Ret [("error", PyStr missing_key_message)], w) /\
  PyStr.contains missing_key_message "Authorization: Bearer YOUR_API_KEY" = true /\
  dict_get [("error", PyStr missing_key_message)] "status" = None.
Proof.
  intros H. split; [| split; reflexivity].
  destruct (resolver_returns w c) as [v Hv].
  rewrite Hv in H. simpl in H. injection H as ->.
  unfold example_tool. unfold mbind, M_bind, bind. now rewrite Hv.
Qed.

Lemma C5_missing_credential_error_witness :
  example_tool 0 "moon" (call_world (Some ∅) (Ret (post [] ∅)))
  = (Ret [("error", PyStr missing_key_message)],
     call_world (Some ∅) (Ret (post [] ∅))).
Proof.
  refine (proj1 (C5_missing_credential_error
                   (call_world (Some ∅) (Ret (post [] ∅))) 0 "moon" _)).
  vm_compute. reflexivity.
Defined.

(** C6: the guarded block of [on_request] never raises, so [on_request]
    is [call_next context] run in the world the block leaves; [call_next] is
    invoked whether a credential was found or not. Whatever the body of the
    [try] raises, the handler turns it into one debug record; when
    [get_http_request()] raises, that record is all that changes. *)
Theorem C6_interceptor_never_blocks {R : Type} (w : World) (c : ctx_id)
    (call_next : ctx_id -> M R) :
  fst (AuthMiddleware.guarded_extract_and_bind c w) = Ret tt /\
  AuthMiddleware.on_request c call_next w
  = call_next c (snd (AuthMiddleware.guarded_extract_and_bind c w)) /\
  (forall e w1,
     AuthMiddleware.extract_and_bind c w = (Raise e, w1) ->
     AuthMiddleware.on_request c call_next w
     = call_next c (set_events w1 (EvLog DEBUG (MsgExtractFailed e) :: events w1))) /\
  (forall e, http_request w = Raise e ->
     AuthMiddleware.on_request c call_next w
     = call_next c (set_events w (EvLog DEBUG (MsgExtractFailed e) :: events w))).
Proof.
  split; [apply guarded_returns |].
  split; [apply on_request_run |].
  split.
  - intros e w1 Hb. rewrite on_request_run.
    unfold AuthMiddleware.guarded_extract_and_bind.
    pose proof (try_except_log_returns (AuthMiddleware.extract_and_bind c) w) as T.
    rewrite Hb in T. now rewrite T.
  - intros e He. rewrite on_request_run.
    now rewrite (guarded_no_request w c e He).
Qed.

Lemma C6_interceptor_never_blocks_witness :
  AuthMiddleware.on_request 0 get_session_api_key
    (call_world None (Raise (Exn "RuntimeError" "No active HTTP request found.")))
  = get_session_api_key 0
      (set_events
         (call_world None (Raise (Exn "RuntimeError" "No active HTTP request found.")))
         [EvLog DEBUG (MsgExtractFailed (Exn "RuntimeError" "No active HTTP request found."))]).
Proof.
  refine (proj2 (proj2 (proj2 (C6_interceptor_never_blocks
            (call_world None (Raise (Exn "RuntimeError" "No active HTTP request found.")))
            0 get_session_api_key)))
            (Exn "RuntimeError" "No active HTTP request found.") _).
  reflexivity.
Defined.

(** ** What the middleware writes *)

(** The stores after the guarded block, case by case. *)
Lemma guarded_stores (w : World) (c : ctx_id) :
  let w' := snd (AuthMiddleware.guarded_extract_and_bind c w) in
  match http_request w with
  | Raise _ => heap w' = heap w /\ http_request w' = http_request w
  | Ret rq =>
      let token := AuthMiddleware.extract_token rq in
      if truthy token then
        match heap w !! c with
        | Some st =>
            heap w' = <[c := <["api_key" := token]> st]> (heap w) /\
            http_request w' = http_request w
        | None =>
            heap w' = heap w /\
            http_request w'
            = Ret (mkRequest (req_method rq) (req_url rq) (req_headers rq)
                     (<["api_key" := token]> (req_state rq)))
        end
      else heap w' = heap w /\ http_request w' = http_request w
  end.
Proof.
  intros w'. subst w'.
  destruct (http_request w) as [rq|e] eqn:H.
  2: { rewrite (guarded_no_request w c e H). simpl. now rewrite H. }
  simpl. destruct (truthy (AuthMiddleware.extract_token rq)) eqn:Ht.
  2: { rewrite (guarded_no_token w c rq H Ht). simpl. now rewrite H. }
  destruct (truthy_is_str _ Ht) as (s & Es & Hs).
  destruct (heap w !! c) as [st|] eqn:Hc.
  - rewrite (guarded_bind_context w c rq st s H Es Hs Hc). simpl.
    now rewrite Es, H.
  - rewrite (guarded_bind_request w c rq s H Es Hs Hc). simpl.
    now rewrite Es.
Qed.




(** ** Repeated resolution and the tools *)

(** C8: two calls of the resolver in a row, in the same context and with
    no middleware run in between, return the same thing, and leave the
    world as it was. *)
Theorem C8_resolver_idempotent (w : World) (c : ctx_id) :
  exists v,
    (r1 ← get_session_api_key c;
     r2 ← get_session_api_key c;
     mret (r1, r2)) w
    = (Ret (v, v), w).
Proof.
  destruct (resolver_returns w c) as [v Hv]. exists v.
  unfold mbind, M_bind, bind. now rewrite Hv, Hv.
Qed.

(** C9: [get_api_info] returns normally and leaves the world alone; its
    [auth_status] is ["authenticated"] exactly when the resolver returns a
    credential, that is a non-empty string, and ["not authenticated"] when
    the resolver reports absence. For a call on stores that held nothing,
    the status after the middleware is ["authenticated"] exactly when the
    headers carried a non-empty credential. *)
Theorem C9_auth_status (w : World) (c : ctx_id) :
  (exists d,
     get_api_info c w = (Ret d, w) /\
     (dict_get d "auth_status" = Some (PyStr "authenticated") <->
      exists s, fst (get_session_api_key c w) = Ret (PyStr s) /\ s <> "") /\
     (fst (get_session_api_key c w) = Ret PyNone ->
      dict_get d "auth_status" = Some (PyStr "not authenticated"))) /\
  (forall rq,
     http_request w = Ret rq -> no_credential_bound w c ->
     exists d,
       fst (AuthMiddleware.on_request c get_api_info w) = Ret d /\
       dict_get d "auth_status"
       = Some (PyStr (if truthy (AuthMiddleware.extract_token rq)
                      then "authenticated" else "not authenticated"))).
Proof.
  split.
  - destruct (resolver_returns w c) as [v Hv].
    unfold get_api_info. unfold mbind, M_bind, bind. rewrite Hv. simpl.
    eexists. split; [reflexivity |]. simpl. split.
    + split.
      * destruct v as [|[|a s]]; simpl; try discriminate.
        intros _. eexists. split; [reflexivity | discriminate].
      * intros (s & [= ->] & Hs). destruct s; [congruence | reflexivity].
    + intros [= ->]. reflexivity.
  - intros rq Hrq Hun.
    pose proof (on_request_run w c get_session_api_key) as Hres.
    rewrite on_request_run. unfold get_api_info. unfold mbind, M_bind, bind.
    destruct (resolver_returns (snd (AuthMiddleware.guarded_extract_and_bind c w)) c)
      as [v Hv].
    rewrite Hv. simpl. eexists. split; [reflexivity |]. simpl.
    rewrite Hv in Hres. simpl in Hres.
    destruct (truthy (AuthMiddleware.extract_token rq)) eqn:Ht.
    + destruct (truthy_is_str _ Ht) as (s & Es & Hs).
      pose proof (bound_then_resolved w c rq s Hrq Es Hs) as B.
      rewrite Hres in B. simpl in B. injection B as ->. now destruct s.
    + assert (v = PyNone) as ->; [| reflexivity].
      assert (fst (get_session_api_key c
                     (snd (AuthMiddleware.guarded_extract_and_bind c w)))
              = Ret PyNone) as E.
      { rewrite (guarded_no_token w c rq Hrq Ht). simpl.
        rewrite (resolver_reads_stores _ w c) by reflexivity.
        now rewrite (unbound_resolves_to_None w c Hun). }
      rewrite Hv in E. simpl in E. now injection E.
Qed.

Lemma C9_auth_status_witness :
  exists d,
    fst (AuthMiddleware.on_request 0 get_api_info
           (call_world None (Ret (post [("authorization", "Bearer abc123")] ∅))))
    = Ret d /\
    dict_get d "auth_status" = Some (PyStr "authenticated").
Proof.
  refine (proj2 (C9_auth_status
                   (call_world None (Ret (post [("authorization", "Bearer abc123")] ∅))) 0)
            (post [("authorization", "Bearer abc123")] ∅) _ _);
    [reflexivity |].
  split; [| split].
  - intros st Hst. simpl in Hst. discriminate.
  - intros rq' Hrq'. simpl in Hrq'. injection Hrq' as <-. reflexivity.
  - intros c' st _ Hst. simpl in Hst. discriminate.
Defined.

(** Scenario 1: a call with [Authorization: Bearer abc123]. *)
Example scenario_bearer_authenticated :
  match fst (AuthMiddleware.on_request 0 get_api_info
               (call_world None (Ret (post [("authorization", "Bearer abc123")] ∅)))) with
  | Ret d => dict_get d "auth_status"
  | Raise _ => None
  end = Some (PyStr "authenticated").
Proof. reflexivity. Qed.

(** Scenario 2: a call without auth headers. *)
Example scenario_no_headers :
  match fst (AuthMiddleware.on_request 0 get_api_info
               (call_world None (Ret (post [("accept", "*/*")] ∅)))) with
  | Ret d => dict_get d "auth_status"
  | Raise _ => None
  end = Some (PyStr "not authenticated")
  /\ fst (AuthMiddleware.on_request 0 (fun c => example_tool c "moon")
            (call_world None (Ret (post [("accept", "*/*")] ∅))))
     = Ret [("error", PyStr missing_key_message)].
Proof. split; reflexivity. Qed.

(** Scenario 3: [X-API-KEY: zzz] and no Authorization header. *)
Example scenario_x_api_key :
  fst (AuthMiddleware.on_request 0 get_session_api_key
         (call_world None (Ret (post [("x-api-key", "zzz")] ∅))))
  = Ret (PyStr "zzz").
Proof. reflexivity. Qed.

(** ** A bearer header with a blank token *)

(** C10: when the Authorization value matches the prefix and what follows
    strips to the empty string, the token is the X-API-KEY value, as for a
    request whose Authorization value does not match: the two requests give
    the same token and leave the same stores; what the run newly puts under
    [api_key], if anything, is the non-empty X-API-KEY value. *)
Theorem C10_blank_bearer_falls_back (w : World) (c : ctx_id) (rq : Request) :
  http_request w = Ret rq ->
  let auth := headers_get (req_headers rq) "Authorization" "" in
  let key := headers_get (req_headers rq) "X-API-KEY" "" in
  PyStr.startswith (PyStr.lower auth) "bearer " = true ->
  PyStr.strip (PyStr.slice_from 7 auth) = "" ->
  AuthMiddleware.extract_token rq = PyStr key /\
  (forall rq',
     PyStr.startswith
       (PyStr.lower (headers_get (req_headers rq') "Authorization" "")) "bearer "
     = false ->
     headers_get (req_headers rq') "X-API-KEY" "" = key ->
     req_state rq' = req_state rq ->
     AuthMiddleware.extract_token rq' = AuthMiddleware.extract_token rq /\
     let w1 := snd (AuthMiddleware.guarded_extract_and_bind c w) in
     let w2 := snd (AuthMiddleware.guarded_extract_and_bind c
                      (set_http_request w (Ret rq'))) in
     heap w2 = heap w1 /\ request_state_of w2 = request_state_of w1) /\
  (let w1 := snd (AuthMiddleware.guarded_extract_and_bind c w) in
   forall v,
     state_api_key (heap w1 !! c) = Some v \/
     (exists st, request_state_of w1 = Some st /\ st !! "api_key" = Some v) ->
     (v = PyStr key /\ key <> "") \/
     state_api_key (heap w !! c) = Some v \/
     req_state rq !! "api_key" = Some v).
Proof.
  intros Hrq auth key Hp Hs.
  assert (AuthMiddleware.extract_token rq = PyStr key) as Hex.
  { unfold AuthMiddleware.extract_token, AuthMiddleware.bearer_token.
    fold auth. rewrite Hp, Hs. reflexivity. }
  split; [exact Hex |]. split.
  - intros rq' Hp' Hk' Hst'.
    assert (AuthMiddleware.extract_token rq' = PyStr key) as Hex'.
    { unfold AuthMiddleware.extract_token, AuthMiddleware.bearer_token.
      rewrite Hp'. simpl. now rewrite Hk'. }
    split; [now rewrite Hex, Hex' |].
    intros w1 w2. subst w1 w2.
    pose proof (guarded_stores w c) as G1.
    pose proof (guarded_stores (set_http_request w (Ret rq')) c) as G2.
    simpl in G1, G2. rewrite Hrq in G1. rewrite Hex in G1. rewrite Hex' in G2.
    unfold request_state_of.
    destruct (truthy (PyStr key)).
    + destruct (heap w !! c) as [st|].
      * destruct G1 as [-> ->], G2 as [-> ->]. simpl.
        now rewrite Hst'.
      * destruct G1 as [-> ->], G2 as [-> ->]. simpl. now rewrite Hst'.
    + destruct G1 as [-> ->], G2 as [-> ->]. simpl.
      now rewrite Hst'.
  - intros w1 v. subst w1.
    pose proof (guarded_stores w c) as G1. simpl in G1.
    rewrite Hrq, Hex in G1. unfold request_state_of.
    destruct (truthy (PyStr key)) eqn:Ht.
    + apply truthy_PyStr in Ht.
      destruct (heap w !! c) as [st|] eqn:Hc.
      * destruct G1 as [-> ->].
        rewrite lookup_insert_eq. simpl. rewrite lookup_insert_eq.
        intros [[= <-] | (st' & [= <-] & Hv)]; [now left | now right; right].
      * destruct G1 as [-> ->]. rewrite Hc. simpl.
        intros [[=] | (st' & [= <-] & Hv)].
        rewrite lookup_insert_eq in Hv. injection Hv as <-. now left.
    + destruct G1 as [-> ->].
      intros [Hv | (st' & [= <-] & Hv)]; [now right; left | now right; right].
Qed.

Lemma C10_blank_bearer_falls_back_witness :
  AuthMiddleware.extract_token blank_bearer_request = PyStr "k".
Proof.
  refine (proj1 (C10_blank_bearer_falls_back
                   (call_world (Some ∅) (Ret blank_bearer_request)) 0
                   blank_bearer_request _ _ _)); reflexivity.
Defined.

(** ** What the middleware leaves alone *)

(** The accessor of the context and the clock are out of the block's
    reach. *)
Lemma guarded_keeps_ambient (w : World) (c : ctx_id) :
  current_context (snd (AuthMiddleware.guarded_extract_and_bind c w))
  = current_context w /\
  clock (snd (AuthMiddleware.guarded_extract_and_bind c w)) = clock w.
Proof.
  destruct (http_request w) as [rq|e] eqn:H.
  2: { now rewrite (guarded_no_request w c e H). }
  destruct (truthy (AuthMiddleware.extract_token rq)) eqn:Ht.
  2: { now rewrite (guarded_no_token w c rq H Ht). }
  destruct (truthy_is_str _ Ht) as (s & Es & Hs).
  destruct (heap w !! c) as [st|] eqn:Hc.
  - now rewrite (guarded_bind_context w c rq st s H Es Hs Hc).
  - now rewrite (guarded_bind_request w c rq s H Es Hs Hc).
Qed.

(** X1: writing the credential into the state of a context is an insert under
    one key of one object: the slot then reads back the token, every other
    attribute of that state, every other context and the request are as
    before. *)
Theorem context_write_frame (w : World) (c : ctx_id) (rq : Request) (st : attrs) :
  http_request w = Ret rq ->
  truthy (AuthMiddleware.extract_token rq) = true ->
  heap w !! c = Some st ->
  let w' := snd (AuthMiddleware.guarded_extract_and_bind c w) in
  (exists st',
     heap w' !! c = Some st' /\
     st' !! "api_key" = Some (AuthMiddleware.extract_token rq) /\
     (forall k, k <> "api_key" -> st' !! k = st !! k)) /\
  (forall c', c' <> c -> heap w' !! c' = heap w !! c') /\
  http_request w' = http_request w.
Proof.
  intros Hrq Ht Hc w'. subst w'.
  pose proof (guarded_stores w c) as G. simpl in G.
  rewrite Hrq in G. rewrite Ht, Hc in G. destruct G as [Gh Gr].
  rewrite Gh, Gr. split; [| split].
  - eexists. split; [apply lookup_insert_eq |]. split.
    + apply lookup_insert_eq.
    + intros k Hk. now apply lookup_insert_ne.
  - intros c' Hc'. now apply lookup_insert_ne.
  - now rewrite Hrq.
Qed.

Lemma context_write_frame_witness :
  http_request (snd (AuthMiddleware.guarded_extract_and_bind 0
                       (call_world (Some {[ "user" := PyStr "ann" ]}) (Ret key_request))))
  = http_request (call_world (Some {[ "user" := PyStr "ann" ]}) (Ret key_request)).
Proof.
  refine (proj2 (proj2 (context_write_frame
            (call_world (Some {[ "user" := PyStr "ann" ]}) (Ret key_request))
            0 key_request {[ "user" := PyStr "ann" ]} _ _ _))); reflexivity.
Defined.

(** X2: for a context without a state the write is an insert under one key of
    the request state: the method, the URL and the headers of the request,
    every other attribute of its state and the whole heap are as before. *)
Theorem request_write_frame (w : World) (c : ctx_id) (rq : Request) :
  http_request w = Ret rq ->
  truthy (AuthMiddleware.extract_token rq) = true ->
  heap w !! c = None ->
  let w' := snd (AuthMiddleware.guarded_extract_and_bind c w) in
  heap w' = heap w /\
  exists rq',
    http_request w' = Ret rq' /\
    req_method rq' = req_method rq /\ req_url rq' = req_url rq /\
    req_headers rq' = req_headers rq /\
    req_state rq' !! "api_key" = Some (AuthMiddleware.extract_token rq) /\
    (forall k, k <> "api_key" -> req_state rq' !! k = req_state rq !! k).
Proof.
  intros Hrq Ht Hc w'. subst w'.
  pose proof (guarded_stores w c) as G. simpl in G.
  rewrite Hrq in G. rewrite Ht, Hc in G. destruct G as [Gh Gr].
  split; [exact Gh |]. eexists. split; [exact Gr |]. simpl.
  repeat (split; [reflexivity |]). split.
  - apply lookup_insert_eq.
  - intros k Hk. now apply lookup_insert_ne.
Qed.

Lemma request_write_frame_witness :
  heap (snd (AuthMiddleware.guarded_extract_and_bind 0
               (call_world None (Ret key_request))))
  = heap (call_world None (Ret key_request)).
Proof.
  refine (proj1 (request_write_frame (call_world None (Ret key_request))
                   0 key_request _ _ _)); reflexivity.
Defined.

(** X3: whatever the request, the block never gives a context a state nor
    takes one away, never touches [get_context()] or the clock, and never
    changes the method, the URL or the headers of the request; a failing
    [get_http_request()] keeps failing with the same exception. *)
Theorem middleware_read_only_parts (w : World) (c : ctx_id) :
  let w' := snd (AuthMiddleware.guarded_extract_and_bind c w) in
  dom (heap w') = dom (heap w) /\
  current_context w' = current_context w /\
  clock w' = clock w /\
  match http_request w with
  | Ret rq =>
      exists rq', http_request w' = Ret rq' /\
                  req_method rq' = req_method rq /\ req_url rq' = req_url rq /\
                  req_headers rq' = req_headers rq
  | Raise e => http_request w' = Raise e
  end.
Proof.
  intros w'. subst w'.
  destruct (guarded_keeps_ambient w c) as [Hcc Hck].
  pose proof (guarded_stores w c) as G. simpl in G.
  split; [| split; [exact Hcc | split; [exact Hck |]]].
  - destruct (http_request w) as [rq|e].
    + destruct (truthy (AuthMiddleware.extract_token rq)).
      * destruct (heap w !! c) as [st|] eqn:Hc; destruct G as [-> _];
          [| reflexivity].
        rewrite dom_insert_L.
        assert (c ∈ dom (heap w)) as Hin by (apply elem_of_dom; eauto).
        clear -Hin. set_solver.
      * now destruct G as [-> _].
    + now destruct G as [-> _].
  - destruct (http_request w) as [rq|e].
    + destruct (truthy (AuthMiddleware.extract_token rq)).
      * destruct (heap w !! c) as [st|]; destruct G as [_ ->];
          eexists; split; try reflexivity; simpl; auto.
      * destruct G as [_ ->]. eexists. split; [reflexivity | auto].
    + now destruct G as [_ ->].
Qed.

(** ** Running the middleware again, or without a credential *)

(** The token depends on the headers alone. *)
Lemma extract_token_headers (rq rq' : Request) :
  req_headers rq' = req_headers rq ->
  AuthMiddleware.extract_token rq' = AuthMiddleware.extract_token rq.
Proof. intros H. unfold AuthMiddleware.extract_token. now rewrite H. Qed.

(** X4: a second run of the block on the same call writes what the first run
    wrote: the stores after two runs are the stores after one. *)
Theorem middleware_stores_idempotent (w : World) (c : ctx_id) :
  let w1 := snd (AuthMiddleware.guarded_extract_and_bind c w) in
  let w2 := snd (AuthMiddleware.guarded_extract_and_bind c w1) in
  heap w2 = heap w1 /\ http_request w2 = http_request w1.
Proof.
  intros w1 w2. subst w2.
  pose proof (guarded_stores w c) as G1. simpl in G1. fold w1 in G1.
  pose proof (guarded_stores w1 c) as G2. simpl in G2.
  destruct (http_request w) as [rq|e] eqn:Hrq.
  2: { destruct G1 as [_ E]. rewrite E in G2. rewrite E. exact G2. }
  destruct (truthy (AuthMiddleware.extract_token rq)) eqn:Ht.
  2: { destruct G1 as [_ E]. rewrite E in G2. rewrite Ht in G2.
       rewrite E. exact G2. }
  destruct (heap w !! c) as [st|] eqn:Hc.
  - destruct G1 as [Eh Er]. rewrite Er in G2. cbv beta iota zeta in G2.
    rewrite Ht in G2.
    assert (heap w1 !! c
            = Some (<["api_key" := AuthMiddleware.extract_token rq]> st)) as Hc1
        by (rewrite Eh; apply lookup_insert_eq).
    rewrite Hc1 in G2. destruct G2 as [G2h G2r].
    split; [| now rewrite G2r, Er].
    rewrite G2h, Eh. now rewrite !insert_insert_eq.
  - destruct G1 as [Eh Er]. rewrite Er in G2. cbv beta iota zeta in G2.
    match type of G2 with
    | context [AuthMiddleware.extract_token ?r] =>
        lazymatch r with
        | rq => fail
        | _ => rewrite (extract_token_headers rq r eq_refl) in G2
        end
    end.
    rewrite Ht in G2.
    assert (heap w1 !! c = None) as Hc1 by (now rewrite Eh).
    rewrite Hc1 in G2. destruct G2 as [G2h G2r]. split; [exact G2h |].
    rewrite G2r, Er. simpl. now rewrite insert_insert_eq.
Qed.

(** X5: a request without a credential, or no request at all, clears nothing:
    the resolver answers for every context as it did before the block. *)
Theorem credential_less_call_keeps_bindings (w : World) (c c' : ctx_id) :
  (forall rq, http_request w = Ret rq ->
              truthy (AuthMiddleware.extract_token rq) = false) ->
  fst (get_session_api_key c'
         (snd (AuthMiddleware.guarded_extract_and_bind c w)))
  = fst (get_session_api_key c' w).
Proof.
  intros Hno. apply resolver_reads_stores.
  - pose proof (guarded_stores w c) as G. simpl in G.
    destruct (http_request w) as [rq|e].
    + rewrite (Hno rq eq_refl) in G. now destruct G.
    + now destruct G.
  - pose proof (guarded_stores w c) as G. simpl in G.
    destruct (http_request w) as [rq|e].
    + rewrite (Hno rq eq_refl) in G. now destruct G.
    + now destruct G.
  - apply guarded_keeps_ambient.
Qed.

Lemma credential_less_call_keeps_bindings_witness :
  fst (get_session_api_key 0
         (snd (AuthMiddleware.guarded_extract_and_bind 0
                 (call_world (Some {[ "api_key" := PyStr "old" ]})
                    (Ret (post [("accept", "*/*")] ∅))))))
  = fst (get_session_api_key 0
           (call_world (Some {[ "api_key" := PyStr "old" ]})
              (Ret (post [("accept", "*/*")] ∅)))).
Proof.
  apply (credential_less_call_keeps_bindings
           (call_world (Some {[ "api_key" := PyStr "old" ]})
              (Ret (post [("accept", "*/*")] ∅))) 0 0).
  intros rq Hrq. simpl in Hrq. injection Hrq as <-. reflexivity.
Defined.

(** ** Non-empty credentials as an invariant *)

(** X6: the block keeps the invariant that a filled slot holds a non-empty
    string, and under that invariant the resolver returns [None] or a
    non-empty string, never an empty one. *)
Theorem middleware_keeps_slots_nonempty (w : World) (c : ctx_id) :
  slots_hold_credentials w ->
  slots_hold_credentials (snd (AuthMiddleware.guarded_extract_and_bind c w)) /\
  (forall c',
     fst (get_session_api_key c' w) = Ret PyNone \/
     exists s, fst (get_session_api_key c' w) = Ret (PyStr s) /\ s <> "").
Proof.
  intros [Ih Ir]. split.
  - pose proof (guarded_stores w c) as G. simpl in G.
    destruct (http_request w) as [rq|e] eqn:Hrq.
    2: { destruct G as [Gh Gr]. split.
         - intros c0 st v. rewrite Gh. apply Ih.
         - intros rq v. rewrite Gr. discriminate. }
    destruct (truthy (AuthMiddleware.extract_token rq)) eqn:Ht.
    2: { destruct G as [Gh Gr]. split.
         - intros c0 st v. rewrite Gh. apply Ih.
         - intros rq0 v. rewrite Gr. apply Ir. }
    destruct (heap w !! c) as [st|] eqn:Hc; destruct G as [Gh Gr]; split.
    + intros c0 st0 v. rewrite Gh.
      destruct (decide (c0 = c)) as [-> | Hne].
      * rewrite lookup_insert_eq. intros [= <-].
        destruct (decide ("api_key" = "api_key")) as [_ | []]; [| reflexivity].
        rewrite lookup_insert_eq. now intros [= <-].
      * rewrite lookup_insert_ne by congruence. apply Ih.
    + intros rq0 v. rewrite Gr. apply Ir.
    + intros c0 st0 v. rewrite Gh. apply Ih.
    + intros rq0 v. rewrite Gr. intros [= <-]. simpl.
      rewrite lookup_insert_eq. now intros [= <-].
  - intros c'.
    assert (forall v, fst (get_session_api_key c' w) = Ret v ->
                      v = PyNone \/ truthy v = true) as Hv.
    { intros v.
      destruct (state_api_key (heap w !! c')) as [v1|] eqn:H1.
      { rewrite (resolver_context_hit w c' v1 H1). intros [= <-]. right.
        destruct (heap w !! c') as [st|] eqn:Hc; [| discriminate].
        now apply (Ih c' st). }
      destruct (request_store_value w) as [v2|] eqn:H2.
      { rewrite (resolver_request_hit w c' v2 H1 H2). intros [= <-]. right.
        unfold request_store_value in H2.
        destruct (http_request w) as [rq|] eqn:Hrq; [| discriminate].
        now apply (Ir rq). }
      rewrite (resolver_alternate w c' H1 H2). simpl.
      destruct (alternate_context_value w) as [v3|] eqn:H3.
      - intros [= <-]. right. unfold alternate_context_value in H3.
        destruct (current_context w) as [c0|]; [| discriminate].
        destruct (heap w !! c0) as [st|] eqn:Hc; [| discriminate].
        now apply (Ih c0 st).
      - intros [= <-]. now left. }
    destruct (resolver_returns w c') as [v E]. rewrite E. simpl.
    destruct (Hv v) as [-> | Ht]; [now rewrite E | now left |].
    right. destruct (truthy_is_str v Ht) as (s & -> & Hs). eauto.
Qed.

Lemma middleware_keeps_slots_nonempty_witness :
  slots_hold_credentials
    (snd (AuthMiddleware.guarded_extract_and_bind 0
            (call_world (Some ∅) (Ret key_request)))).
Proof.
  refine (proj1 (middleware_keeps_slots_nonempty
                   (call_world (Some ∅) (Ret key_request)) 0 _)).
  split.
  - intros c st v Hc Hk. simpl in Hc.
    destruct (decide (c = 0)) as [-> | Hne].
    + rewrite lookup_singleton_eq in Hc. injection Hc as <-.
      rewrite lookup_empty in Hk. discriminate.
    + rewrite lookup_singleton_ne in Hc by congruence. discriminate.
  - intros rq v Hrq Hk. simpl in Hrq. injection Hrq as <-.
    simpl in Hk. rewrite lookup_empty in Hk. discriminate.
Defined.

(** ** What reaches the log *)

Lemma slice_to_length (n : nat) (s : string) :
  String.length (PyStr.slice_to n s) <= n.
Proof.
  revert s. induction n as [|n IH]; intros [|a s]; simpl; try lia.
  specialize (IH s). lia.
Qed.

Lemma slice_to_prefix (n : nat) (s : string) :
  PyStr.startswith s (PyStr.slice_to n s) = true.
Proof.
  revert s. induction n as [|n IH]; intros [|a s]; simpl; try reflexivity.
  now rewrite Ascii.eqb_refl, IH.
Qed.

Lemma headers_get_lower (hs : Headers) (k key d : string) :
  PyStr.lower k = PyStr.lower key -> headers_get hs k d = headers_get hs key d.
Proof.
  intros H. induction hs as [|[k' v'] hs IH]; simpl; [reflexivity |].
  now rewrite H, IH.
Qed.

Lemma dict_store_same (d : list (string * string)) (k v : string) :
  In (k, v) (dict_store d k v).
Proof.
  induction d as [|[k' v'] d IH]; simpl; [now left |].
  destruct (String.eqb k' k) eqn:E.
  - apply String.eqb_eq in E. subst k'. now left.
  - right. exact IH.
Qed.

Lemma dict_store_other (d : list (string * string)) (k v k0 v0 : string) :
  k0 <> k -> In (k0, v0) d -> In (k0, v0) (dict_store d k v).
Proof.
  intros Hne. induction d as [|[k' v'] d IH]; simpl; [tauto |].
  intros [[= -> ->] | Hin].
  - apply String.eqb_neq in Hne. rewrite Hne. now left.
  - destruct (String.eqb k' k); right; [exact Hin | now apply IH].
Qed.

Lemma headers_dict_fold_keeps (g : string -> string) (l : Headers)
    (d : list (string * string)) (k0 : string) :
  In (k0, g k0) d ->
  In (k0, g k0) (fold_left (fun d kv => dict_store d (fst kv) (g (fst kv))) l d).
Proof.
  revert d. induction l as [|[k v] l IH]; intros d Hin; simpl; [exact Hin |].
  apply IH. destruct (decide (k0 = k)) as [-> | Hne].
  - apply dict_store_same.
  - now apply dict_store_other.
Qed.

Lemma headers_dict_fold_adds (g : string -> string) (l : Headers)
    (d : list (string * string)) (k0 v0 : string) :
  In (k0, v0) l ->
  In (k0, g k0) (fold_left (fun d kv => dict_store d (fst kv) (g (fst kv))) l d).
Proof.
  revert d. induction l as [|[k v] l IH]; intros d; simpl; [tauto |].
  intros [[= -> ->] | Hin].
  - apply headers_dict_fold_keeps. apply dict_store_same.
  - now apply IH.
Qed.

(** Every name of the raw list is a key of the dictionary, with the value a
    lookup under that name gives. *)
Lemma headers_dict_holds (hs : Headers) (k v key : string) :
  In (k, v) hs -> PyStr.lower k = PyStr.lower key ->
  In (k, headers_get hs key "") (headers_dict hs).
Proof.
  intros Hin Hk. rewrite <- (headers_get_lower hs k key "" Hk).
  unfold headers_dict.
  apply (headers_dict_fold_adds (fun k => headers_get hs k "") hs [] k v Hin).
Qed.

(** X7: a call that binds a credential adds three records: the headers as
    [dict(request.headers)] has them, the method and URL, and a record with a
    prefix of the token that is at most 10 characters long, so that a longer
    token never appears whole in that last record. The first record holds
    every header name that came, with the value a lookup under that name
    gives: the header value the token was taken from is logged whole. *)
Theorem bound_token_log (w : World) (c : ctx_id) (rq : Request) (s : string) :
  http_request w = Ret rq ->
  AuthMiddleware.extract_token rq = PyStr s -> s <> "" ->
  exists p,
    (events (snd (AuthMiddleware.guarded_extract_and_bind c w))
     = EvLog INFO (match heap w !! c with
                   | Some _ => MsgBoundContext p
                   | None => MsgBoundRequest p
                   end)
       :: EvLog INFO (MsgMethodUrl (req_method rq) (req_url rq))
       :: EvLog INFO (MsgReceivedHeaders (headers_dict (req_headers rq)))
       :: events w) /\
    p = PyStr.slice_to 10 s /\
    String.length p <= 10 /\
    PyStr.startswith s p = true /\
    (10 < String.length s -> p <> s) /\
    (forall k v key,
       In (k, v) (req_headers rq) -> PyStr.lower k = PyStr.lower key ->
       In (k, headers_get (req_headers rq) key "")
          (headers_dict (req_headers rq))).
Proof.
  intros Hrq Es Hs. exists (PyStr.slice_to 10 s).
  split; [| split; [reflexivity | split; [apply slice_to_length | split; [| split]]]].
  - destruct (heap w !! c) as [st|] eqn:Hc.
    + now rewrite (guarded_bind_context w c rq st s Hrq Es Hs Hc).
    + now rewrite (guarded_bind_request w c rq s Hrq Es Hs Hc).
  - apply slice_to_prefix.
  - intros Hlen E. pose proof (slice_to_length 10 s) as L.
    rewrite E in L. lia.
  - intros k v key. apply headers_dict_holds.
Qed.

Lemma bound_token_log_witness :
  exists p,
    (events (snd (AuthMiddleware.guarded_extract_and_bind 0
                    (call_world None
                       (Ret (post [("x-api-key", "0123456789abcdef");
                                   ("accept", "a"); ("accept", "b")] ∅)))))
     = EvLog INFO
         (match heap (call_world None
                        (Ret (post [("x-api-key", "0123456789abcdef");
                                    ("accept", "a"); ("accept", "b")] ∅))) !! 0 with
          | Some _ => MsgBoundContext p
          | None => MsgBoundRequest p
          end)
       :: EvLog INFO (MsgMethodUrl "POST" "/mcp")
       :: EvLog INFO (MsgReceivedHeaders
                        (headers_dict [("x-api-key", "0123456789abcdef");
                                       ("accept", "a"); ("accept", "b")]))
       :: []) /\
    p = PyStr.slice_to 10 "0123456789abcdef" /\
    String.length p <= 10 /\
    PyStr.startswith "0123456789abcdef" p = true /\
    (10 < String.length "0123456789abcdef" -> p <> "0123456789abcdef") /\
    (forall k v key,
       In (k, v) [("x-api-key", "0123456789abcdef"); ("accept", "a"); ("accept", "b")] ->
       PyStr.lower k = PyStr.lower key ->
       In (k, headers_get [("x-api-key", "0123456789abcdef");
                           ("accept", "a"); ("accept", "b")] key "")
          (headers_dict [("x-api-key", "0123456789abcdef");
                         ("accept", "a"); ("accept", "b")])).
Proof.
  refine (bound_token_log
            (call_world None
               (Ret (post [("x-api-key", "0123456789abcdef");
                           ("accept", "a"); ("accept", "b")] ∅)))
            0 (post [("x-api-key", "0123456789abcdef");
                     ("accept", "a"); ("accept", "b")] ∅)
            "0123456789abcdef" _ _ _); [reflexivity | reflexivity | discriminate].
Defined.

(** [dict(request.headers)] on a list with a repeated name. *)
Example headers_dict_repeated :
  headers_dict [("x-api-key", "k"); ("accept", "a"); ("accept", "b")]
  = [("x-api-key", "k"); ("accept", "a")].
Proof. reflexivity. Qed.

(** ** The shape of a bearer token *)

Lemma rstrip_idempotent (s : string) :
  PyStr.rstrip (PyStr.rstrip s) = PyStr.rstrip s.
Proof.
  induction s as [|a s IH]; [reflexivity |].
  simpl. destruct (PyStr.rstrip s) as [|b t] eqn:E.
  - destruct (PyStr.isspace a) eqn:Ha; [reflexivity |].
    simpl. now rewrite Ha.
  - change (PyStr.rstrip (String a (String b t))) with
      (match PyStr.rstrip (String b t) with
       | EmptyString =>
           if PyStr.isspace a then EmptyString else String a EmptyString
       | r' => String a r'
       end).
    now rewrite IH.
Qed.

Lemma lstrip_head (s : string) :
  PyStr.lstrip s = "" \/
  exists a t, PyStr.lstrip s = String a t /\ PyStr.isspace a = false.
Proof.
  induction s as [|a s IH]; simpl; [now left |].
  destruct (PyStr.isspace a) eqn:Ha; [exact IH |]. right. eauto.
Qed.

Lemma rstrip_keeps_head (a : ascii) (t : string) :
  PyStr.isspace a = false ->
  exists t', PyStr.rstrip (String a t) = String a t'.
Proof.
  intros Ha. simpl. destruct (PyStr.rstrip t); [rewrite Ha |]; eauto.
Qed.

Lemma strip_idempotent (s : string) :
  PyStr.strip (PyStr.strip s) = PyStr.strip s.
Proof.
  unfold PyStr.strip.
  destruct (lstrip_head s) as [-> | (a & t & -> & Ha)]; [reflexivity |].
  destruct (rstrip_keeps_head a t Ha) as [t' E].
  assert (PyStr.lstrip (PyStr.rstrip (String a t)) = PyStr.rstrip (String a t))
    as -> by (rewrite E; simpl; now rewrite Ha).
  apply rstrip_idempotent.
Qed.

(** X9: a token taken from a bearer header never begins or ends with
    whitespace, and once the middleware keeps it, it is not empty either. *)
Theorem bearer_token_has_no_padding (rq : Request) (s : string) :
  AuthMiddleware.bearer_token
    (headers_get (req_headers rq) "Authorization" "") = PyStr s ->
  PyStr.lstrip s = s /\ PyStr.rstrip s = s /\
  (s <> "" -> AuthMiddleware.extract_token rq = PyStr s).
Proof.
  intros H. unfold AuthMiddleware.extract_token. rewrite H.
  unfold AuthMiddleware.bearer_token in H.
  destruct (PyStr.startswith _ _); [| discriminate].
  injection H as <-.
  destruct (strip_fixed _ (strip_idempotent
              (PyStr.slice_from 7 (headers_get (req_headers rq) "Authorization" ""))))
    as [HL HR].
  split; [exact HL | split; [exact HR |]].
  intros Hne. apply truthy_PyStr in Hne. now rewrite Hne.
Qed.

Lemma bearer_token_has_no_padding_witness :
  PyStr.lstrip "a b" = "a b" /\ PyStr.rstrip "a b" = "a b" /\
  ("a b" <> "" ->
   AuthMiddleware.extract_token (post [("Authorization", "bearer  a b ")] ∅)
   = PyStr "a b").
Proof.
  refine (bearer_token_has_no_padding
            (post [("Authorization", "bearer  a b ")] ∅) "a b" _).
  reflexivity.
Defined.

(** X10: the scheme word counts in any case: whatever 7 characters lower to
    ["bearer "], the token is what follows them, stripped. *)
Theorem bearer_scheme_any_case (p rest : string) :
  PyStr.lower p = "bearer " ->
  AuthMiddleware.bearer_token (p +:+ rest) = PyStr (PyStr.strip rest).
Proof.
  intros Hp. unfold AuthMiddleware.bearer_token.
  assert (String.length p = 7) as Hlen
      by (rewrite <- lower_length, Hp; reflexivity).
  rewrite lower_app, Hp.
  assert (PyStr.startswith ("bearer " +:+ PyStr.lower rest) "bearer " = true)
    as -> by reflexivity.
  rewrite <- Hlen. now rewrite slice_from_app.
Qed.

Lemma bearer_scheme_any_case_witness :
  AuthMiddleware.bearer_token ("BEARER " +:+ " tok ") = PyStr (PyStr.strip " tok ").
Proof. apply bearer_scheme_any_case. reflexivity. Defined.

(** ** The tools past the credential check *)

Lemma example_tool_run (w : World) (c : ctx_id) (query : string) (v : pyval) :
  fst (get_session_api_key c w) = Ret v ->
  example_tool c query w
  = if truthy v
    then (Ret (placeholder_result query (clock w)),
          set_events w (EvClock :: events w))
    else (Ret [("error", PyStr missing_key_message)], w).
Proof.
  intros H. destruct (resolver_returns w c) as [v' Hv].
  rewrite Hv in H. simpl in H. injection H as ->.
  unfold example_tool. unfold mbind, M_bind, bind. rewrite Hv.
  destruct (truthy v); reflexivity.
Qed.

(** X11: a call whose headers carry a credential gets the placeholder result
    from [example_tool]: the query comes back as it was sent, the timestamp
    is the clock's, and neither depends on what the stores held before. *)
Theorem example_tool_after_middleware (w : World) (c : ctx_id) (rq : Request)
    (query : string) :
  http_request w = Ret rq ->
  truthy (AuthMiddleware.extract_token rq) = true ->
  fst (AuthMiddleware.on_request c (fun c' => example_tool c' query) w)
  = Ret (placeholder_result query (clock w)) /\
  dict_get (placeholder_result query (clock w)) "query" = Some (PyStr query) /\
  dict_get (placeholder_result query (clock w)) "error" = None.
Proof.
  intros Hrq Ht. split; [| split; reflexivity].
  destruct (truthy_is_str _ Ht) as (s & Es & Hs).
  pose proof (bound_then_resolved w c rq s Hrq Es Hs) as B.
  rewrite on_request_run in B. rewrite on_request_run.
  rewrite (example_tool_run _ c query (PyStr s) B).
  apply truthy_PyStr in Hs. rewrite Hs. simpl.
  now rewrite (proj2 (guarded_keeps_ambient w c)).
Qed.

Lemma example_tool_after_middleware_witness :
  fst (AuthMiddleware.on_request 0 (fun c' => example_tool c' "mars")
         (call_world None (Ret (post [("authorization", "Bearer abc123")] ∅))))
  = Ret (placeholder_result "mars"
           (clock (call_world None (Ret (post [("authorization", "Bearer abc123")] ∅))))).
Proof.
  refine (proj1 (example_tool_after_middleware
                   (call_world None (Ret (post [("authorization", "Bearer abc123")] ∅)))
                   0 (post [("authorization", "Bearer abc123")] ∅) "mars" _ _));
    reflexivity.
Defined.

(** X12: an empty string in the credential slot counts as no credential: the
    resolver returns it, and [example_tool] answers with the same error
    dictionary as for [None], without reading the clock. *)
Theorem empty_credential_is_missing (w : World) (c : ctx_id) (st : attrs)
    (query : string) :
  heap w !! c = Some st -> st !! "api_key" = Some (PyStr "") ->
  fst (get_session_api_key c w) = Ret (PyStr "") /\
  example_tool c query w = (Ret [("error", PyStr missing_key_message)], w).
Proof.
  intros Hc Hk.
  assert (get_session_api_key c w = (Ret (PyStr ""), w)) as E
      by (apply resolver_context_hit; now rewrite Hc).
  split; [now rewrite E |].
  rewrite (example_tool_run w c query (PyStr "")); [reflexivity | now rewrite E].
Qed.

Lemma empty_credential_is_missing_witness :
  fst (get_session_api_key 0 empty_slot_world) = Ret (PyStr "") /\
  example_tool 0 "mars" empty_slot_world
  = (Ret [("error", PyStr missing_key_message)], empty_slot_world).
Proof.
  refine (empty_credential_is_missing empty_slot_world 0
            {[ "api_key" := PyStr "" ]} "mars" _ _); reflexivity.
Defined.

(** X13: neither tool gives the credential away: two calls whose credentials
    differ but are both there get the same [get_api_info] dictionary, and
    with the same query and clock the same [example_tool] dictionary. *)
Theorem tools_do_not_reveal_credential (w1 w2 : World) (c1 c2 : ctx_id)
    (v1 v2 : pyval) (query : string) :
  fst (get_session_api_key c1 w1) = Ret v1 ->
  fst (get_session_api_key c2 w2) = Ret v2 ->
  truthy v1 = true -> truthy v2 = true ->
  fst (get_api_info c1 w1) = fst (get_api_info c2 w2) /\
  (clock w1 = clock w2 ->
   fst (example_tool c1 query w1) = fst (example_tool c2 query w2)).
Proof.
  intros H1 H2 T1 T2. split.
  - destruct (resolver_returns w1 c1) as [u1 E1].
    destruct (resolver_returns w2 c2) as [u2 E2].
    rewrite E1 in H1. rewrite E2 in H2. simpl in H1, H2.
    injection H1 as ->. injection H2 as ->.
    unfold get_api_info. unfold mbind, M_bind, bind.
    rewrite E1, E2. simpl. now rewrite T1, T2.
  - intros Hck.
    rewrite (example_tool_run w1 c1 query v1 H1).
    rewrite (example_tool_run w2 c2 query v2 H2).
    rewrite T1, T2. simpl. now rewrite Hck.
Qed.

Lemma tools_do_not_reveal_credential_witness :
  fst (get_api_info 0 (call_world (Some {[ "api_key" := PyStr "alice" ]}) (Ret (post [] ∅))))
  = fst (get_api_info 0 (call_world (Some {[ "api_key" := PyStr "bob" ]}) (Ret (post [] ∅)))).
Proof.
  refine (proj1 (tools_do_not_reveal_credential
                   (call_world (Some {[ "api_key" := PyStr "alice" ]}) (Ret (post [] ∅)))
                   (call_world (Some {[ "api_key" := PyStr "bob" ]}) (Ret (post [] ∅)))
                   0 0 (PyStr "alice") (PyStr "bob") "q" _ _ _ _)); reflexivity.
Defined.

(** ** The third step of the resolver *)

(** X14: when [get_context()] gives back the very context the resolver was
    called with, the third step can find nothing the first step did not:
    the answer is the request store's, or [None]. *)
Theorem alternate_step_same_context (w : World) (c : ctx_id) :
  current_context w = Ret c ->
  (forall st, heap w !! c = Some st -> st !! "api_key" = None) ->
  fst (alternate_context_step w) = Ret None /\
  fst (get_session_api_key c w)
  = Ret (match fst (request_store_step w) with
         | Ret (Some v) => v
         | _ => PyNone
         end).
Proof.
  intros Hcc Hmiss%no_state_key_iff.
  assert (alternate_context_value w = None) as E3
      by (unfold alternate_context_value; now rewrite Hcc).
  rewrite alternate_context_step_run, request_store_step_run. simpl.
  split; [now rewrite E3 |].
  destruct (request_store_value w) as [v|] eqn:E2.
  - now rewrite (resolver_request_hit w c v Hmiss E2).
  - rewrite (resolver_alternate w c Hmiss E2). now rewrite E3.
Qed.

Lemma alternate_step_same_context_witness :
  fst (alternate_context_step (call_world (Some ∅) (Ret key_request))) = Ret None.
Proof.
  refine (proj1 (alternate_step_same_context
                   (call_world (Some ∅) (Ret key_request)) 0 _ _));
    [reflexivity |].
  intros st Hst. simpl in Hst. rewrite lookup_singleton_eq in Hst.
  injection Hst as <-. apply lookup_empty.
Defined.

(** ** Starting the server *)

Section RunServer.

Import Bootstrap.

Variable env : gmap string string.
Variable py_int : string -> result Z.
Variable mcp_run : RunConfig -> result unit.

(** X17: with neither PORT nor LOG_LEVEL set, the server is started on port
    8000 with log level ["info"], and [run_server] ends as [mcp.run] does. *)
Theorem defaults_without_environment :
  env !! "PORT" = None -> env !! "LOG_LEVEL" = None ->
  py_int "8000" = Ret 8000%Z ->
  fst (run_server env py_int mcp_run)
  = match mcp_run (mkRunConfig "streamable-http" 8000 "0.0.0.0" "/mcp" "info") with
    | Ret _ => Ret tt
    | Raise e => Raise e
    end.
Proof.
  intros Hp Hl Hi. unfold run_server, getenv. rewrite Hp, Hl. simpl.
  rewrite Hi.
  change (PyStr.lower "INFO") with "info".
  destruct (mcp_run _); reflexivity.
Qed.

End RunServer.

Lemma defaults_without_environment_witness :
  fst (Bootstrap.run_server ∅ Bootstrap.decimal_int (fun _ => Ret tt)) = Ret tt.
Proof.
  refine (defaults_without_environment ∅ Bootstrap.decimal_int (fun _ => Ret tt)
            _ _ _); reflexivity.
Defined.
